(** * A file-sharing backend (Express / Mongoose): access control and credentials

    Shallow embedding of [src/app.js].  The route handlers become functions
    over an explicit server state (the two MongoDB collections, the upload
    directory and the ObjectId supply); the libraries the handlers call
    (bcrypt, jsonwebtoken, fs) are interfaces with the laws the handlers rely
    on, and every interface is given an executable reference instance.  The
    arithmetic of the access-code generator is modelled on IEEE-754 binary64
    values with round-to-nearest-even. *)

From Stdlib Require Import ZArith String Ascii List Bool Lia.
From Stdlib Require Floats.SpecFloat.
From stdpp Require Import base option list strings gmap.

Local Open Scope Z_scope.
Set Warnings "-register-all".

(** ** Binary64 arithmetic on non-negative finite values

    A non-negative finite double is an integer multiple of [2^-1074] with at
    most 53 significant bits.  It is represented by that integer multiple (its
    number of {e units}); [one] is the double [1.0].  The operations return the
    correctly rounded (nearest, ties to even) result of the exact operation.
    Overflow to [Infinity] lies outside the model: the values the generator
    handles stay below [2^20]. *)
Module F64.

Definition prec : Z := 53.
Definition one : Z := 2 ^ 1074.
Definition max_units : Z := 2 ^ 2098.

(** The integer literal [n] as a double (exact below [2^53]). *)
Definition of_int (n : Z) : Z := n * one.

(** Exponent, in units, of the last place kept for a value of integer
    part-in-units [v]: [0] in the subnormal/exact range. *)
Definition ulp_exp (v : Z) : Z := Z.max 0 (Z.log2 v - (prec - 1)).

Definition is_f64 (x : Z) : bool :=
  (0 <=? x) && (x <? max_units) && (x mod 2 ^ ulp_exp x =? 0).

(** Nearest integer to [a / b], ties to even. *)
Definition rne_div (a b : Z) : Z :=
  let q := a / b in
  match 2 * (a mod b) ?= b with
  | Lt => q
  | Gt => q + 1
  | Eq => if Z.even q then q else q + 1
  end.

(** The double nearest to the rational [n / d] units. *)
Definition round_ratio (n d : Z) : Z :=
  let s := ulp_exp (n / d) in
  rne_div n (d * 2 ^ s) * 2 ^ s.

Definition fmul (x y : Z) : Z := round_ratio (x * y) one.
Definition fadd (x y : Z) : Z := round_ratio (x + y) 1.

(** [Math.floor] of a double, as the integer it denotes. *)
Definition Math_floor (x : Z) : Z := x / one.

(** What [Math.random()] may return: a double in [[0, 1)]. *)
Definition is_random (r : Z) : Prop := is_f64 r = true /\ r < one.

(** The largest double below [1.0]. *)
Definition pred_one : Z := one - 2 ^ 1021.

End F64.

(** The same two operations through the Standard Library's executable
    IEEE-754 specification, for comparison on sample values. *)
Module F64Check.

Definition to_spec (x : Z) : SpecFloat.spec_float :=
  let e := F64.ulp_exp x in
  match x / 2 ^ e with
  | Zpos m => SpecFloat.S754_finite false m (e - 1074)
  | _ => SpecFloat.S754_zero false
  end.

Definition of_spec (f : SpecFloat.spec_float) : Z :=
  match f with
  | SpecFloat.S754_finite false m e => Zpos m * 2 ^ (e + 1074)
  | _ => 0
  end.

Definition spec_fmul (x y : Z) : Z :=
  of_spec (SpecFloat.SFmul 53 1024 (to_spec x) (to_spec y)).

Definition spec_fadd (x y : Z) : Z :=
  of_spec (SpecFloat.SFadd 53 1024 (to_spec x) (to_spec y)).

(** Pseudo-random 53-bit significands. *)
Fixpoint significands (k : nat) (x : Z) : list Z :=
  match k with
  | O => []
  | S k' => x :: significands k' ((x * 6364136223846793005 + 1442695040888963407) mod 2 ^ 53)
  end.

(** Doubles in [[0, 1)]: multiples of [2^-53], small normals, subnormals, and
    the ends of the interval. *)
Definition samples : list Z :=
  map (fun m => m * 2 ^ 1021) (significands 24 12345)
  ++ map (fun m => (m / 2 ^ 20) * 2 ^ 1000) (significands 8 5)
  ++ significands 8 77
  ++ [0; 1; 2 ^ 1020; 2 ^ 1021; 2 ^ 1073; 3 * 2 ^ 1000; F64.pred_one].

Definition agrees (r : Z) : bool :=
  let product := F64.fmul r (F64.of_int 900000) in
  F64.is_f64 r && (r <? F64.one)
  && (product =? spec_fmul r (F64.of_int 900000))
  && (F64.fadd (F64.of_int 100000) product =? spec_fadd (F64.of_int 100000) product).

End F64Check.

(** ** [Number.prototype.toString] on non-negative integers below [1e21] *)

Definition digit_char (d : Z) : ascii :=
  ascii_of_nat (48 + Z.to_nat d).

Arguments digit_char : simpl never.

Fixpoint decimal_go (fuel : nat) (n : Z) : string :=
  match fuel with
  | O => EmptyString
  | S fuel' =>
      if n <? 10 then String (digit_char n) EmptyString
      else (decimal_go fuel' (n / 10) ++ String (digit_char (n mod 10)) EmptyString)%string
  end.

Definition Number_toString (n : Z) : string :=
  decimal_go (S (Z.to_nat (Z.log2 n))) n.

Definition is_digit (c : ascii) : bool :=
  let k := nat_of_ascii c in (48 <=? k)%nat && (k <=? 57)%nat.

Fixpoint all_digits (s : string) : bool :=
  match s with
  | EmptyString => true
  | String c s' => is_digit c && all_digits s'
  end.

(** The integer a digit string denotes ([parseInt], base 10). *)
Fixpoint decimal_value_from (acc : Z) (s : string) : Z :=
  match s with
  | EmptyString => acc
  | String c s' => decimal_value_from (10 * acc + (Z.of_nat (nat_of_ascii c) - 48)) s'
  end.

Definition decimal_value (s : string) : Z := decimal_value_from 0 s.

(** ** The access-code generator (app.js line 104)

    [Math.floor(100000 + Math.random() * 900000).toString()], with the result
    of [Math.random()] as the argument. *)
Definition code_number (random : Z) : Z :=
  F64.Math_floor (F64.fadd (F64.of_int 100000) (F64.fmul random (F64.of_int 900000))).

Definition generate_code (random : Z) : string :=
  Number_toString (code_number random).


(** What the spec calls a six-digit code. *)
Definition six_digits (code : string) : Prop :=
  String.length code = 6%nat /\ all_digits code = true /\
  100000 <= decimal_value code <= 999999.

(** ** JavaScript values, requests and responses *)

(** Ids are taken as already cast: a route parameter or token payload that
    Mongoose cannot cast to an ObjectId is outside the model. *)
Definition ObjectId : Type := N.

Inductive JsVal : Type :=
| JUndefined
| JNull
| JBool (b : bool)
| JNum (n : Z)
| JStr (s : string)
| JDate (ms : N)
| JOid (o : ObjectId)
| JArr (items : list JsVal)
| JObj (fields : list (string * JsVal)).

(** [s === v] for a string [s]: true only for a string primitive with the
    same characters. *)
Definition strict_eq_string (s : string) (v : JsVal) : bool :=
  match v with
  | JStr s' => String.eqb s s'
  | _ => false
  end.

(** Property read on an object literal; [None] when the key is absent. *)
Fixpoint js_get (key : string) (fields : list (string * JsVal)) : option JsVal :=
  match fields with
  | [] => None
  | (k, v) :: rest => if String.eqb k key then Some v else js_get key rest
  end.

Definition js_keys (v : JsVal) : list string :=
  match v with
  | JObj fields => map fst fields
  | _ => []
  end.

Definition js_field (key : string) (v : JsVal) : option JsVal :=
  match v with
  | JObj fields => js_get key fields
  | _ => None
  end.

Inductive ResBody : Type :=
| ResJson (v : JsVal)
| ResDownload (path : string)
| ResError (message : string).

Record Response : Type := { status : Z; body : ResBody }.

(** What an [async] route handler leaves behind: a response, or a rejected
    promise that nothing handles (Express 4 then sends no response). *)
Inductive Outcome : Type :=
| Sent (r : Response)
| Unhandled (error : string).

(** [res.json(v)] and [res.status(code).json(v)]. *)
Definition res_json (v : JsVal) : Response := {| status := 200; body := ResJson v |}.
Definition res_status_json (code : Z) (v : JsVal) : Response :=
  {| status := code; body := ResJson v |}.
Definition res_download (path : string) : Response :=
  {| status := 200; body := ResDownload path |}.

Definition error_body (message : string) : JsVal := JObj [("error"%string, JStr message)].
Definition message_body (message : string) : JsVal := JObj [("message"%string, JStr message)].

(** A call that returns or throws. *)
Inductive Completion (A : Type) : Type :=
| Returned (a : A)
| Thrown (error : string).
Arguments Returned {A} a.
Arguments Thrown {A} error.

(** A middleware either hands over to the next handler or ends the request. *)
Inductive Step (A : Type) : Type :=
| Next (a : A)
| Done (o : Outcome).
Arguments Next {A} a.
Arguments Done {A} o.

(** [String.prototype.split] with a one-character separator. *)
Fixpoint split_on (sep : ascii) (s : string) : list string :=
  match s with
  | EmptyString => [EmptyString]
  | String c s' =>
      if Ascii.eqb c sep then EmptyString :: split_on sep s'
      else match split_on sep s' with
           | h :: t => String c h :: t
           | [] => [String c EmptyString]
           end
  end.

Fixpoint has_char (c : ascii) (s : string) : bool :=
  match s with
  | EmptyString => false
  | String c' s' => Ascii.eqb c' c || has_char c s'
  end.

(** ** Mongoose models (app.js lines 38-53) *)

Module User.
Record t : Type := { _id : ObjectId; username : string; password : string }.
End User.

Module File.
Record t : Type := {
  _id : ObjectId;
  filename : string;
  filepath : string;
  uploadedBy : ObjectId;
  code : string;
  uploadedAt : N
}.

(** The document as [res.json] serialises it; [__v] is the version key
    Mongoose adds to every saved document. *)
Definition toJSON (f : t) : JsVal :=
  JObj [ ("_id"%string, JOid (_id f));
         ("filename"%string, JStr (filename f));
         ("filepath"%string, JStr (filepath f));
         ("uploadedBy"%string, JOid (uploadedBy f));
         ("code"%string, JStr (code f));
         ("uploadedAt"%string, JDate (uploadedAt f));
         ("__v"%string, JNum 0) ].
End File.

(** ** The libraries the handlers call *)

(** [bcrypt.hash(data, rounds)] draws a salt; the salt is an argument here. *)
Class Bcrypt : Type := {
  bcrypt_hash : string -> Z -> string -> string;
  bcrypt_compare : string -> string -> bool
}.

(** [jwt.verify] returns the payload with the [iat] claim [jwt.sign] added
    (the time of issue in seconds; [jwt_sign] receives [Date.now()]). *)
Record Decoded : Type := { id : ObjectId; iat : N }.

Class JsonWebToken : Type := {
  jwt_sign : ObjectId -> N -> string -> string;
  jwt_verify : string -> string -> option Decoded
}.

(** The upload directory.  [disk_write] is the write Multer's disk storage
    performs, [fs_unlinkSync] is [fs.unlinkSync]; both may throw, and nothing is
    assumed about when. *)
Class FileSystem : Type := {
  Disk : Type;
  disk_write : string -> list Byte.byte -> Disk -> Disk * Completion unit;
  fs_unlinkSync : string -> Disk -> Disk * Completion unit
}.

(** [process.env]. *)
Class ProcessEnv : Type := { JWT_SECRET : string }.

(** The contracts of the libraries. *)
Class BcryptCorrect `{Bcrypt} : Prop := {
  bcrypt_compare_hash : forall data rounds salt,
      bcrypt_compare data (bcrypt_hash data rounds salt) = true
}.

Class JwtCorrect `{JsonWebToken} : Prop := {
  jwt_verify_sign : forall user_id now secret,
      jwt_verify (jwt_sign user_id now secret) secret
      = Some {| id := user_id; iat := (now / 1000)%N |};
  jwt_sign_nonempty : forall user_id now secret,
      jwt_sign user_id now secret <> EmptyString;
  jwt_sign_no_space : forall user_id now secret,
      has_char " " (jwt_sign user_id now secret) = false
}.

(** ** The server *)

Section App.
Context `{Bcrypt} `{JsonWebToken} `{FileSystem} `{ProcessEnv}.

(** The [users] and [files] collections in natural (insertion) order, the
    upload directory, and the next ObjectId a [new Model(...)] receives. *)
Record Server : Type := {
  users : list User.t;
  files : list File.t;
  disk : Disk;
  next_id : ObjectId
}.

Definition start (d : Disk) : Server :=
  {| users := []; files := []; disk := d; next_id := 0%N |}.

(** *** Queries *)

(** [User.findOne({ username })] *)
Definition User_findOne (username : string) (s : Server) : option User.t :=
  find (fun u => String.eqb (User.username u) username) (users s).

(** [File.findById(id)] *)
Definition File_findById (file_id : ObjectId) (s : Server) : option File.t :=
  find (fun f => N.eqb (File._id f) file_id) (files s).

(** [File.findOne({ _id, uploadedBy })] *)
Definition File_findOne (file_id owner : ObjectId) (s : Server) : option File.t :=
  find (fun f => N.eqb (File._id f) file_id && N.eqb (File.uploadedBy f) owner) (files s).

(** [File.find({ uploadedBy })] *)
Definition File_find (owner : ObjectId) (s : Server) : list File.t :=
  List.filter (fun f => N.eqb (File.uploadedBy f) owner) (files s).

(** [doc.deleteOne()]: removes the first document with the given [_id]. *)
Fixpoint deleteOne (file_id : ObjectId) (l : list File.t) : list File.t :=
  match l with
  | [] => []
  | f :: rest => if N.eqb (File._id f) file_id then rest else f :: deleteOne file_id rest
  end.

(** *** authMiddleware (lines 56-67) *)
Definition authMiddleware (authorization : option string) : Step Decoded :=
  let token :=
    match authorization with
    | Some header => nth_error (split_on " " header) 1
    | None => None
    end in
  match token with
  | None | Some EmptyString =>
      Done (Sent (res_status_json 401 (error_body "Unauthorized")))
  | Some token =>
      match jwt_verify token JWT_SECRET with
      | Some decoded => Next decoded
      | None => Done (Sent (res_status_json 401 (error_body "Invalid token")))
      end
  end.

(** *** Multer disk storage (lines 70-78) *)
Record ReqFile : Type := { req_filename : string; req_path : string }.

Definition storage_destination : string := "uploads/".

Definition storage_filename (now : N) (originalname : string) : string :=
  (Number_toString (Z.of_N now) ++ "-" ++ originalname)%string.

(** [upload.single("file")]: [part] is the file part of the request, sent
    under the field name [file]; [None] when the request carries no file part
    at all.  Requests with a file part under another field name, or with more
    than one, are outside the model (Multer ends them with an error).  A failed
    write goes to Express's error handler. *)
Definition upload_single (now : N) (part : option (string * list Byte.byte)) (d : Disk)
  : Disk * Step (option ReqFile) :=
  match part with
  | None => (d, Next None)
  | Some (originalname, content) =>
      let filename := storage_filename now originalname in
      let path := (storage_destination ++ filename)%string in
      match disk_write path content d with
      | (d', Returned _) => (d', Next (Some {| req_filename := filename; req_path := path |}))
      | (d', Thrown e) => (d', Done (Sent {| status := 500; body := ResError e |}))
      end
  end.

(** *** POST /register (lines 81-87)

    The body carries [username] and [password] as strings, here and in
    [login]. *)
Definition register (s : Server) (username password salt : string) : Server * Outcome :=
  let hashed := bcrypt_hash password 10 salt in
  let user := {| User._id := next_id s; User.username := username; User.password := hashed |} in
  ({| users := users s ++ [user]; files := files s; disk := disk s;
      next_id := N.succ (next_id s) |},
   Sent (res_json (message_body "User registered"))).

(** *** POST /login (lines 90-100) *)
Definition login (s : Server) (username password : string) (now : N) : Outcome :=
  match User_findOne username s with
  | None => Sent (res_status_json 401 (error_body "User not found"))
  | Some user =>
      if bcrypt_compare password (User.password user) then
        let token := jwt_sign (User._id user) now JWT_SECRET in
        Sent (res_json (JObj [("token"%string, JStr token)]))
      else Sent (res_status_json 401 (error_body "Invalid password"))
  end.

(** *** POST /upload (lines 103-113)

    [t_store] and [t_doc] are the two readings of [Date.now()] (Multer's file
    name, the schema default of [uploadedAt]); [random] is [Math.random()]. *)
Definition upload_handler (s : Server) (user : Decoded) (file : option ReqFile)
           (t_doc : N) (random : Z) : Server * Outcome :=
  let code := generate_code random in
  match file with
  | None => (s, Unhandled "TypeError: Cannot read properties of undefined (reading 'filename')")
  | Some f =>
      let doc := {| File._id := next_id s;
                    File.filename := req_filename f;
                    File.filepath := req_path f;
                    File.uploadedBy := id user;
                    File.code := code;
                    File.uploadedAt := t_doc |} in
      ({| users := users s; files := files s ++ [doc]; disk := disk s;
          next_id := N.succ (next_id s) |},
       Sent (res_json (JObj [("message"%string, JStr "File uploaded");
                             ("code"%string, JStr code)])))
  end.

Definition upload (s : Server) (authorization : option string)
           (part : option (string * list Byte.byte)) (t_store t_doc : N) (random : Z)
  : Server * Outcome :=
  match authMiddleware authorization with
  | Done o => (s, o)
  | Next user =>
      match upload_single t_store part (disk s) with
      | (d, Done o) =>
          ({| users := users s; files := files s; disk := d; next_id := next_id s |}, o)
      | (d, Next file) =>
          upload_handler
            {| users := users s; files := files s; disk := d; next_id := next_id s |}
            user file t_doc random
      end
  end.

(** *** GET /files (lines 116-119) *)
Definition list_files (s : Server) (authorization : option string) : Outcome :=
  match authMiddleware authorization with
  | Done o => o
  | Next user => Sent (res_json (JArr (map File.toJSON (File_find (id user) s))))
  end.

(** *** DELETE /delete/:id (lines 122-137)

    The [catch] only logs (the console is not part of the state), so what
    [fs.unlinkSync] returned or threw is dropped; the disk it left is kept. *)
Definition delete_file (s : Server) (authorization : option string) (file_id : ObjectId)
  : Server * Outcome :=
  match authMiddleware authorization with
  | Done o => (s, o)
  | Next user =>
      match File_findOne file_id (id user) s with
      | None => (s, Sent (res_status_json 404 (error_body "File not found")))
      | Some file =>
          let (d, _) := fs_unlinkSync (File.filepath file) (disk s) in
          ({| users := users s; files := deleteOne (File._id file) (files s); disk := d;
              next_id := next_id s |},
           Sent (res_json (message_body "File deleted")))
      end
  end.

(** *** POST /download/:id (lines 140-147) *)
Definition download (s : Server) (file_id : ObjectId) (code : JsVal) : Outcome :=
  match File_findById file_id s with
  | None => Sent (res_status_json 403 (error_body "Invalid code"))
  | Some file =>
      if negb (strict_eq_string (File.code file) code)
      then Sent (res_status_json 403 (error_body "Invalid code"))
      else Sent (res_download (File.filepath file))
  end.

(** *** Requests and reachable states *)
Inductive Request : Type :=
| PostRegister (username password salt : string)
| PostLogin (username password : string) (now : N)
| PostUpload (authorization : option string) (part : option (string * list Byte.byte))
             (t_store t_doc : N) (random : Z)
| GetFiles (authorization : option string)
| DeleteFile (authorization : option string) (file_id : ObjectId)
| PostDownload (file_id : ObjectId) (code : JsVal).

Definition handle (s : Server) (req : Request) : Server * Outcome :=
  match req with
  | PostRegister username password salt => register s username password salt
  | PostLogin username password now => (s, login s username password now)
  | PostUpload authorization part t_store t_doc random =>
      upload s authorization part t_store t_doc random
  | GetFiles authorization => (s, list_files s authorization)
  | DeleteFile authorization file_id => delete_file s authorization file_id
  | PostDownload file_id code => (s, download s file_id code)
  end.

(** The environment keeps its contract: [Math.random()] is a double in
    [[0, 1)]. *)
Definition admissible (req : Request) : Prop :=
  match req with
  | PostUpload _ _ _ _ random => F64.is_random random
  | _ => True
  end.

Inductive reachable : Server -> Prop :=
| reachable_start d : reachable (start d)
| reachable_step s req :
    reachable s -> admissible req -> reachable (fst (handle s req)).

(** MongoDB's unique index on [_id]. *)
Definition unique_file_ids (s : Server) : Prop := NoDup (map File._id (files s)).

(** What every reachable state satisfies: file ids are unique and below the
    next id to hand out, and every stored code has six digits. *)
Definition server_invariant (s : Server) : Prop :=
  unique_file_ids s /\
  (forall f, In f (files s) -> (File._id f < next_id s)%N) /\
  (forall f, In f (files s) -> six_digits (File.code f)).

(** *** Notions the properties are stated with *)

(** The request got past the code check to [res.download]. *)
Definition download_succeeds (o : Outcome) : Prop :=
  exists path, o = Sent (res_download path).

Definition invalid_code : Outcome :=
  Sent (res_status_json 403 (error_body "Invalid code")).

(** A response with an error status, or no response at all. *)
Definition is_failure (o : Outcome) : Prop :=
  match o with
  | Sent r => 400 <= status r
  | Unhandled _ => True
  end.

(** Number of user records that carry [username]. *)
Definition count_username (username : string) (s : Server) : nat :=
  length (List.filter (fun u => String.eqb (User.username u) username) (users s)).

(** Register, then log in with the same credentials, then present the token:
    the login answers with a token that [authMiddleware] resolves to the
    record the registration created. *)
Definition register_login_roundtrip (s : Server) (username password salt : string)
           (now : N) : Prop :=
  let s' := fst (register s username password salt) in
  exists user token,
    users s' = users s ++ [user] /\
    User.username user = username /\
    login s' username password now = Sent (res_json (JObj [("token"%string, JStr token)])) /\
    exists decoded,
      authMiddleware (Some ("Bearer " ++ token)%string) = Next decoded /\
      id decoded = User._id user.

(** The items of a listing response all have exactly the keys [keys]. *)
Definition listing_has_shape (keys : list string) (o : Outcome) : Prop :=
  exists items, o = Sent (res_json (JArr items)) /\
                forall item, In item items -> js_keys item = keys.

End App.

(** ** Traffic: sequences of requests *)

Section Traffic.
Context `{Bcrypt} `{JsonWebToken} `{FileSystem} `{ProcessEnv}.

(** The server after it handled [reqs] in order. *)
Definition run (s : Server) (reqs : list Request) : Server :=
  fold_left (fun s' req => fst (handle s' req)) reqs s.

(** [req] is a [DELETE /delete/:id] for [file_id]. *)
Definition deletes (file_id : ObjectId) (req : Request) : bool :=
  match req with
  | DeleteFile _ file_id' => N.eqb file_id' file_id
  | _ => false
  end.

(** The [Authorization] header of a request to a route behind
    [authMiddleware]; [None] for the open routes. *)
Definition authorization_of (req : Request) : option (option string) :=
  match req with
  | PostUpload authorization _ _ _ _ => Some authorization
  | GetFiles authorization => Some authorization
  | DeleteFile authorization _ => Some authorization
  | PostRegister _ _ _ | PostLogin _ _ _ | PostDownload _ _ => None
  end.

Definition unauthorized : Outcome :=
  Sent (res_status_json 401 (error_body "Unauthorized")).

Definition invalid_token : Outcome :=
  Sent (res_status_json 401 (error_body "Invalid token")).

(** What holds of the records of every reachable state: passwords are bcrypt
    hashes with ten rounds; a file lies under the upload directory, is named by
    [storage_filename], and is owned by an identity a verified token carried. *)
Definition user_wellformed (u : User.t) : Prop :=
  exists password salt, User.password u = bcrypt_hash password 10 salt.

Definition file_wellformed (f : File.t) : Prop :=
  File.filepath f = (storage_destination ++ File.filename f)%string /\
  (exists t originalname, File.filename f = storage_filename t originalname) /\
  (exists token decoded,
      jwt_verify token JWT_SECRET = Some decoded /\ File.uploadedBy f = id decoded).

Definition records_wellformed (s : Server) : Prop :=
  (forall u, In u (users s) -> user_wellformed u) /\
  (forall f, In f (files s) -> file_wellformed f).

End Traffic.

(** ** The download route with the transfer

    [download] above stops at the call of [res.download]; here the route is
    followed to its answer: the cast of the route parameter, the lookup, the
    code check, and the transfer of the blob. *)

(** Mongoose's cast of a route parameter to an ObjectId; [None] when the
    parameter is no ObjectId and the query throws a [CastError]. *)
Class ObjectIdCast : Type := { castObjectId : string -> option ObjectId }.

(** The blob stored under a path, if there is one: what [res.download]
    streams.  Failures other than a missing file are outside the model. *)
Class DiskRead `{FileSystem} : Type := {
  disk_lookup : string -> Disk -> option (list Byte.byte)
}.

(** What the client gets: the bytes of the file, or another outcome. *)
Inductive Delivery : Type :=
| Delivered (path : string) (content : list Byte.byte)
| Undelivered (o : Outcome).

(** The answer of [res.download] for a path with no file behind it. *)
Definition not_on_disk : Outcome :=
  Sent {| status := 404; body := ResError "ENOENT: no such file or directory" |}.

(** The rejection of [File.findById] for a parameter that does not cast;
    the handler does not catch it. *)
Definition cast_error : Outcome :=
  Unhandled "CastError: Cast to ObjectId failed".

Section Transfer.
Context `{Bcrypt} `{JsonWebToken} `{FileSystem} `{ProcessEnv} `{ObjectIdCast} `{!DiskRead}.

(** POST /download/:id (lines 140-147), from [req.params.id] to the answer. *)
Definition download_route (s : Server) (raw_id : string) (code : JsVal) : Delivery :=
  match castObjectId raw_id with
  | None => Undelivered cast_error
  | Some file_id =>
      match File_findById file_id s with
      | None => Undelivered (Sent (res_status_json 403 (error_body "Invalid code")))
      | Some file =>
          if negb (strict_eq_string (File.code file) code)
          then Undelivered (Sent (res_status_json 403 (error_body "Invalid code")))
          else match disk_lookup (File.filepath file) (disk s) with
               | Some content => Delivered (File.filepath file) content
               | None => Undelivered not_on_disk
               end
      end
  end.

(** The [(username, password)] fields of the user records, in order. *)
Definition credentials (s : Server) : list (string * string) :=
  map (fun u => (User.username u, User.password u)) (users s).

(** What the register requests among [reqs] store: the username sent and
    [bcrypt.hash(password, 10)] of the password sent. *)
Fixpoint registrations (reqs : list Request) : list (string * string) :=
  match reqs with
  | [] => []
  | PostRegister username password salt :: rest =>
      (username, bcrypt_hash password 10 salt) :: registrations rest
  | _ :: rest => registrations rest
  end.

End Transfer.

(** ** Reference instances of the libraries

    Executable stand-ins that meet the contracts above; they make the handlers
    run on concrete requests.  None of them is cryptographic. *)
Module Reference.

(** A hash keeps the length and the characters of the data in front of
    the salt; [compare] checks that prefix. *)
Definition hash_prefix (data : string) : string :=
  (Number_toString (Z.of_nat (String.length data)) ++ "$" ++ data)%string.

#[export] Instance bcrypt : Bcrypt := {|
  bcrypt_hash data rounds salt := (hash_prefix data ++ salt)%string;
  bcrypt_compare data hashed := String.prefix (hash_prefix data) hashed
|}.

(** The tag of a key: its characters read as a bijective base-257 numeral. *)
Fixpoint key_tag_from (acc : Z) (secret : string) : Z :=
  match secret with
  | EmptyString => acc
  | String c rest => key_tag_from (257 * acc + Z.of_nat (nat_of_ascii c) + 1) rest
  end.

Definition key_tag (secret : string) : Z := key_tag_from 0 secret.

Definition is_number (s : string) : bool :=
  all_digits s && negb (String.eqb s EmptyString).

(** A token is [<id>.<iat>.<tag of the key>], all three in decimal. *)
#[export] Instance jsonwebtoken : JsonWebToken := {|
  jwt_sign user_id now secret :=
    (Number_toString (Z.of_N user_id) ++ "." ++
     Number_toString (Z.of_N (now / 1000)) ++ "." ++
     Number_toString (key_tag secret))%string;
  jwt_verify token secret :=
    match split_on "." token with
    | [a; b; c] =>
        if is_number a && is_number b && is_number c
           && (decimal_value c =? key_tag secret)
        then Some {| id := Z.to_N (decimal_value a); iat := Z.to_N (decimal_value b) |}
        else None
    | _ => None
    end
|}.

(** A directory is a finite map from paths to contents.  Writing always
    succeeds; unlinking a missing path throws. *)
#[export] Instance filesystem : FileSystem := {|
  Disk := gmap string (list Byte.byte);
  disk_write path content d := (<[path := content]> d, Returned tt);
  fs_unlinkSync path d :=
    match d !! path with
    | Some _ => (delete path d, Returned tt)
    | None => (d, Thrown "ENOENT: no such file or directory")
    end
|}.

#[export] Instance env : ProcessEnv := {| JWT_SECRET := "dev-secret" |}.

(** *** A sample run: alice and bob register, alice logs in and uploads
    [a.txt].  The states are stored evaluated. *)
Definition s0 : Server := start (∅ : gmap string (list Byte.byte)).

Definition register_alice : Request := PostRegister "alice" "p@ss1" "salt-a".
Definition register_bob : Request := PostRegister "bob" "hunter2" "salt-b".

Definition s1 : Server := Eval vm_compute in fst (handle s0 register_alice).
Definition s2 : Server := Eval vm_compute in fst (handle s1 register_bob).

Definition token_of (o : Outcome) : string :=
  match o with
  | Sent {| status := _; body := ResJson (JObj [(_, JStr token)]) |} => token
  | _ => EmptyString
  end.

Definition alice_token : string :=
  Eval vm_compute in token_of (login s2 "alice" "p@ss1" 1700000000000).
Definition bob_token : string :=
  Eval vm_compute in token_of (login s2 "bob" "hunter2" 1700000001000).
Definition bearer (token : string) : option string := Some ("Bearer " ++ token)%string.

Definition alice : Decoded := {| id := 0%N; iat := 1700000000%N |}.
Definition bob : Decoded := {| id := 1%N; iat := 1700000001%N |}.

Definition a_txt : list Byte.byte := [Byte.x68; Byte.x69].

Definition upload_a_txt : Request :=
  PostUpload (bearer alice_token) (Some ("a.txt"%string, a_txt))
             1700000002000 1700000002005 (2 ^ 1073).

Definition s3 : Server := Eval vm_compute in fst (handle s2 upload_a_txt).

Definition a_txt_doc : File.t :=
  {| File._id := 2%N;
     File.filename := "1700000002000-a.txt";
     File.filepath := "uploads/1700000002000-a.txt";
     File.uploadedBy := 0%N;
     File.code := "550000";
     File.uploadedAt := 1700000002005%N |}.

(** The same state after the stored blob went missing. *)
Definition s3_blob_lost : Server :=
  {| users := users s3; files := files s3; disk := ∅; next_id := next_id s3 |}.

(** *** More of the sample run *)

Definition alice_record : User.t :=
  {| User._id := 0%N; User.username := "alice"; User.password := "5$p@ss1salt-a" |}.

Definition b_txt : list Byte.byte := [Byte.x62; Byte.x79; Byte.x65].

(** Requests that follow [s3]: a second [alice], a login, a delete of an id
    nobody has, a listing, and an upload by bob. *)
Definition later_traffic : list Request :=
  [ PostRegister "alice" "stolen" "salt-x";
    PostLogin "alice" "stolen" 1700000005000;
    DeleteFile (bearer bob_token) 7%N;
    GetFiles (bearer alice_token);
    PostUpload (bearer bob_token) (Some ("b.txt"%string, b_txt))
               1700000006000 1700000006001 (3 * 2 ^ 1000) ].


(** *** Reading the disk and casting route parameters *)

#[export] Instance diskread : DiskRead := {| disk_lookup path d := d !! path |}.

Definition hex_digit (c : ascii) : option N :=
  let k := N_of_ascii c in
  if (48 <=? k)%N && (k <=? 57)%N then Some (k - 48)%N
  else if (97 <=? k)%N && (k <=? 102)%N then Some (k - 87)%N
  else if (65 <=? k)%N && (k <=? 70)%N then Some (k - 55)%N
  else None.

Fixpoint hex_value (acc : N) (s : string) : option N :=
  match s with
  | EmptyString => Some acc
  | String c rest =>
      match hex_digit c with
      | Some d => hex_value (16 * acc + d)%N rest
      | None => None
      end
  end.

(** An ObjectId is written as 24 hexadecimal digits. *)
#[export] Instance objectid_cast : ObjectIdCast := {|
  castObjectId raw :=
    if Nat.eqb (String.length raw) 24 then hex_value 0 raw else None
|}.

(** *** The sample run goes on *)

Definition s4 : Server := Eval vm_compute in run s3 later_traffic.

Definition a_txt_id : string := "000000000000000000000002".

(** Bob uploads a file of the same name in the millisecond of alice's upload,
    and deletes his record again. *)
Definition bob_uploads_a_txt : Request :=
  PostUpload (bearer bob_token) (Some ("a.txt"%string, b_txt))
             1700000002000 1700000002009 (3 * 2 ^ 1000).

Definition blob_traffic : list Request :=
  [bob_uploads_a_txt; DeleteFile (bearer bob_token) 3%N].

Definition s5 : Server := Eval vm_compute in run s3 blob_traffic.

End Reference.

(** * Properties *)

(** ** Rounding *)
Module F64Facts.
Import F64.

Lemma ulp_exp_nonneg v : 0 <= ulp_exp v.
Proof. unfold ulp_exp. lia. Qed.

Lemma rne_div_floor a b : 0 < b -> a / b <= rne_div a b <= a / b + 1.
Proof.
  intros Hb. unfold rne_div.
  destruct (2 * (a mod b) ?= b); [destruct (Z.even (a / b))| |]; lia.
Qed.

Lemma rne_div_up a b : 0 < b -> rne_div a b <> a / b -> 0 < a mod b.
Proof.
  intros Hb. unfold rne_div.
  pose proof (Z.mod_pos_bound a b Hb).
  destruct (Z.compare_spec (2 * (a mod b)) b); [destruct (Z.even (a / b))| |]; lia.
Qed.

Lemma rne_div_mono a a' b : 0 < b -> a <= a' -> rne_div a b <= rne_div a' b.
Proof.
  intros Hb Hle.
  pose proof (Z.div_le_mono a a' b Hb Hle) as Hq.
  destruct (Z.eq_dec (a / b) (a' / b)) as [Heq|Hne].
  - pose proof (Z.div_mod a b ltac:(lia)) as Ha.
    pose proof (Z.div_mod a' b ltac:(lia)) as Ha'.
    assert (a mod b <= a' mod b) as Hr by (rewrite Heq in Ha; lia).
    unfold rne_div. rewrite Heq.
    destruct (Z.compare_spec (2 * (a mod b)) b), (Z.compare_spec (2 * (a' mod b)) b);
      destruct (Z.even (a' / b)); lia.
  - pose proof (rne_div_floor a b Hb). pose proof (rne_div_floor a' b Hb). lia.
Qed.

(** A value [y * 2^t] with [y] below [2^53] is a double; rounding never
    crosses one. *)
Lemma round_ratio_le n d y t :
  0 < d -> 0 <= t -> 0 <= y < 2 ^ prec ->
  n <= y * 2 ^ t * d -> round_ratio n d <= y * 2 ^ t.
Proof.
  intros Hd Ht Hy Hn. unfold round_ratio.
  set (s := ulp_exp (n / d)).
  assert (0 <= s) as Hs by apply ulp_exp_nonneg.
  assert (0 < 2 ^ s) as Hps by (apply Z.pow_pos_nonneg; lia).
  assert (0 < d * 2 ^ s) as HD by lia.
  destruct (Z_le_gt_dec s t) as [Hst|Hst].
  - assert (2 ^ t = 2 ^ (t - s) * 2 ^ s) as Hsplit
        by (rewrite <- Z.pow_add_r by lia; f_equal; lia).
    rewrite Hsplit in *. clear Hsplit.
    assert (0 < 2 ^ (t - s)) as Hpts by (apply Z.pow_pos_nonneg; lia).
    set (y' := y * 2 ^ (t - s)) in *.
    assert (n <= (d * 2 ^ s) * y') as Hn' by (subst y'; lia).
    pose proof (Z.div_le_upper_bound n (d * 2 ^ s) y' HD Hn') as Hq.
    assert (rne_div n (d * 2 ^ s) <= y') as Hr.
    { destruct (Z.eq_dec (rne_div n (d * 2 ^ s)) (n / (d * 2 ^ s))) as [->|Hup]; [exact Hq|].
      pose proof (rne_div_up _ _ HD Hup) as Hrem.
      pose proof (rne_div_floor n _ HD).
      pose proof (Z.div_mod n (d * 2 ^ s) ltac:(lia)) as Hdm.
      assert (n / (d * 2 ^ s) < y') by nia. lia. }
    replace (y * (2 ^ (t - s) * 2 ^ s)) with (y' * 2 ^ s) by (subst y'; ring).
    apply Z.mul_le_mono_nonneg_r; lia.
  - exfalso.
    assert (0 < Z.log2 (n / d) - (prec - 1)) as Hlog by (subst s; unfold ulp_exp in *; lia).
    assert (s = Z.log2 (n / d) - (prec - 1)) as Hsdef by (subst s; unfold ulp_exp; lia).
    assert (0 < n / d) as Hpos.
    { destruct (Z_lt_le_dec 0 (n / d)); [assumption|].
      rewrite Z.log2_nonpos in Hlog by assumption. unfold prec in Hlog. lia. }
    pose proof (proj1 (Z.log2_spec _ Hpos)) as Hlo.
    replace (Z.log2 (n / d)) with (prec - 1 + s) in Hlo by lia.
    pose proof (Z.mul_div_le n d Hd) as Hmd.
    assert (2 ^ (prec + t) <= 2 ^ (prec - 1 + s)) as Hpw
        by (apply Z.pow_le_mono_r; unfold prec; lia).
    rewrite Z.pow_add_r in Hpw by (unfold prec; lia).
    assert (0 < 2 ^ t) by (apply Z.pow_pos_nonneg; lia).
    assert (y * 2 ^ t < 2 ^ prec * 2 ^ t) by nia.
    nia.
Qed.

Lemma round_ratio_ge n d y t :
  0 < d -> 0 <= t -> 0 <= y < 2 ^ prec ->
  y * 2 ^ t * d <= n -> y * 2 ^ t <= round_ratio n d.
Proof.
  intros Hd Ht Hy Hn. unfold round_ratio.
  set (s := ulp_exp (n / d)).
  assert (0 <= s) as Hs by apply ulp_exp_nonneg.
  assert (0 < 2 ^ s) as Hps by (apply Z.pow_pos_nonneg; lia).
  assert (0 < d * 2 ^ s) as HD by lia.
  pose proof (rne_div_floor n _ HD) as Hfl.
  destruct (Z_le_gt_dec s t) as [Hst|Hst].
  - assert (2 ^ t = 2 ^ (t - s) * 2 ^ s) as Hsplit
        by (rewrite <- Z.pow_add_r by lia; f_equal; lia).
    rewrite Hsplit in *. clear Hsplit.
    set (y' := y * 2 ^ (t - s)) in *.
    assert ((d * 2 ^ s) * y' <= n) as Hn' by (subst y'; lia).
    pose proof (Z.div_le_lower_bound n (d * 2 ^ s) y' HD Hn') as Hq.
    replace (y * (2 ^ (t - s) * 2 ^ s)) with (y' * 2 ^ s) by (subst y'; ring).
    apply Z.mul_le_mono_nonneg_r; lia.
  - assert (0 < Z.log2 (n / d) - (prec - 1)) as Hlog by (subst s; unfold ulp_exp in *; lia).
    assert (s = Z.log2 (n / d) - (prec - 1)) as Hsdef by (subst s; unfold ulp_exp; lia).
    assert (0 < n / d) as Hpos.
    { destruct (Z_lt_le_dec 0 (n / d)); [assumption|].
      rewrite Z.log2_nonpos in Hlog by assumption. unfold prec in Hlog. lia. }
    pose proof (proj1 (Z.log2_spec _ Hpos)) as Hlo.
    replace (Z.log2 (n / d)) with (prec - 1 + s) in Hlo by lia.
    rewrite Z.pow_add_r in Hlo by (unfold prec; lia).
    pose proof (Z.mul_div_le n d Hd) as Hmd.
    assert ((d * 2 ^ s) * 2 ^ (prec - 1) <= n) as Hn' by nia.
    pose proof (Z.div_le_lower_bound n (d * 2 ^ s) _ HD Hn') as Hq.
    assert (2 ^ (prec + t) <= 2 ^ (prec - 1 + s)) as Hpw
        by (apply Z.pow_le_mono_r; unfold prec; lia).
    rewrite !Z.pow_add_r in Hpw by (unfold prec; lia).
    assert (0 < 2 ^ t) by (apply Z.pow_pos_nonneg; lia).
    assert (y * 2 ^ t <= 2 ^ prec * 2 ^ t) by nia.
    assert (2 ^ (prec - 1) * 2 ^ s <= rne_div n (d * 2 ^ s) * 2 ^ s)
      by (apply Z.mul_le_mono_nonneg_r; lia).
    lia.
Qed.

(** Rounding is monotone. *)
Lemma round_ratio_mono n n' d :
  0 < d -> n <= n' -> round_ratio n d <= round_ratio n' d.
Proof.
  intros Hd Hle.
  pose proof (Z.div_le_mono n n' d Hd Hle) as Hq.
  pose proof (Z.log2_le_mono _ _ Hq) as Hlog.
  destruct (Z.eq_dec (ulp_exp (n / d)) (ulp_exp (n' / d))) as [Heq|Hne].
  - unfold round_ratio. rewrite Heq.
    pose proof (ulp_exp_nonneg (n' / d)).
    apply Z.mul_le_mono_nonneg_r; [apply Z.pow_nonneg; lia|].
    apply rne_div_mono; [|assumption].
    apply Z.mul_pos_pos; [assumption|apply Z.pow_pos_nonneg; lia].
  - set (p := Z.log2 (n' / d)) in *.
    assert (prec - 1 < p /\ Z.log2 (n / d) < p) as [Hp Hlt] by (unfold ulp_exp in Hne; lia).
    assert (0 < n' / d) as Hpos'.
    { destruct (Z_lt_le_dec 0 (n' / d)); [assumption|].
      subst p. rewrite Z.log2_nonpos in Hp by assumption. unfold prec in Hp. lia. }
    pose proof (proj1 (Z.log2_spec _ Hpos')) as Hlo. fold p in Hlo.
    assert (n / d < 2 ^ p) as Hhi.
    { destruct (Z_lt_le_dec 0 (n / d)) as [Hpos|Hnp].
      - apply Z.log2_lt_pow2; assumption.
      - assert (0 < 2 ^ p) by (apply Z.pow_pos_nonneg; unfold prec in Hp; lia). lia. }
    assert (0 <= 1 < 2 ^ prec) as H1 by (unfold prec; simpl; lia).
    assert (0 <= p) as Hp0 by (unfold prec in Hp; lia).
    transitivity (1 * 2 ^ p).
    + apply round_ratio_le; try assumption.
      pose proof (Z.div_mod n d ltac:(lia)). pose proof (Z.mod_pos_bound n d Hd). nia.
    + apply round_ratio_ge; try assumption.
      pose proof (Z.mul_div_le n' d Hd). nia.
Qed.


Lemma is_f64_repr x :
  is_f64 x = true -> exists y t, 0 <= t /\ 0 <= y < 2 ^ prec /\ x = y * 2 ^ t.
Proof.
  unfold is_f64. rewrite !andb_true_iff, Z.leb_le, Z.ltb_lt, Z.eqb_eq.
  intros [[Hx _] Hmod].
  set (t := ulp_exp x) in *.
  assert (0 <= t) as Ht by apply ulp_exp_nonneg.
  assert (0 < 2 ^ t) as Hpt by (apply Z.pow_pos_nonneg; lia).
  exists (x / 2 ^ t), t. split; [assumption|].
  pose proof (Z.div_mod x (2 ^ t) ltac:(lia)) as Hdm. rewrite Hmod in Hdm.
  split; [|lia].
  split; [apply Z.div_pos; lia|].
  apply Z.div_lt_upper_bound; [assumption|].
  destruct (Z.eq_dec x 0) as [->|Hnz]; [unfold prec; nia|].
  pose proof (proj2 (Z.log2_spec x ltac:(lia))) as Hhi.
  rewrite <- Z.pow_add_r by (unfold prec; lia).
  eapply Z.lt_le_trans; [exact Hhi|].
  apply Z.pow_le_mono_r; [lia|]. subst t. unfold ulp_exp, prec. lia.
Qed.

Lemma one_split : one = 2 ^ prec * 2 ^ 1021.
Proof. reflexivity. Qed.

(** Every double in [[0, 1)] is at most [1 - 2^-53]. *)
Lemma random_range r : is_random r -> 0 <= r <= pred_one.
Proof.
  intros [Hf Hlt].
  destruct (is_f64_repr r Hf) as (y & t & Ht & Hy & ->).
  unfold pred_one. rewrite one_split in *.
  set (a := 2 ^ 1021) in *. assert (0 < a) as Ha by (subst a; apply Z.pow_pos_nonneg; lia).
  assert (0 < 2 ^ t) as Hpt by (apply Z.pow_pos_nonneg; lia).
  split; [nia|].
  destruct (Z_le_gt_dec 1021 t) as [Hge|Hlt'].
  - assert (2 ^ t = 2 ^ (t - 1021) * a) as Hsplit
        by (subst a; rewrite <- Z.pow_add_r by lia; f_equal; lia).
    rewrite Hsplit in *.
    assert (0 < 2 ^ (t - 1021)) by (apply Z.pow_pos_nonneg; lia).
    assert (y * 2 ^ (t - 1021) < 2 ^ prec) by nia.
    nia.
  - assert (2 * 2 ^ t <= a) as Hsmall.
    { subst a. change 2 with (2 ^ 1) at 1. rewrite <- Z.pow_add_r by lia.
      apply Z.pow_le_mono_r; lia. }
    nia.
Qed.

Lemma fmul_mono_l x x' c : 0 <= c -> x <= x' -> fmul x c <= fmul x' c.
Proof.
  intros Hc Hx. unfold fmul. apply round_ratio_mono; [reflexivity|].
  apply Z.mul_le_mono_nonneg_r; assumption.
Qed.

Lemma fadd_mono_r c x x' : x <= x' -> fadd c x <= fadd c x'.
Proof. intros Hx. unfold fadd. apply round_ratio_mono; lia. Qed.

Lemma Math_floor_mono x x' : x <= x' -> Math_floor x <= Math_floor x'.
Proof. intros Hx. unfold Math_floor. apply Z.div_le_mono; [reflexivity|assumption]. Qed.

End F64Facts.

(** ** The code generator *)

Lemma code_number_mono r r' : r <= r' -> code_number r <= code_number r'.
Proof.
  intros Hr. unfold code_number.
  apply F64Facts.Math_floor_mono, F64Facts.fadd_mono_r, F64Facts.fmul_mono_l; [|assumption].
  vm_compute. discriminate.
Qed.

Lemma code_number_range r : F64.is_random r -> 100000 <= code_number r <= 999999.
Proof.
  intros Hr. apply F64Facts.random_range in Hr as [Hlo Hhi].
  assert (code_number 0 = 100000) as H0 by (vm_compute; reflexivity).
  assert (code_number F64.pred_one = 999999) as H1 by (vm_compute; reflexivity).
  pose proof (code_number_mono _ _ Hlo). pose proof (code_number_mono _ _ Hhi). lia.
Qed.

(** ** Decimal strings *)

Lemma digit_char_is_digit d : 0 <= d <= 9 -> is_digit (digit_char d) = true.
Proof.
  intros Hd. assert (d = 0 \/ d = 1 \/ d = 2 \/ d = 3 \/ d = 4 \/ d = 5 \/ d = 6 \/ d = 7
                     \/ d = 8 \/ d = 9) as Hc by lia.
  repeat destruct Hc as [->|Hc]; try subst d; reflexivity.
Qed.

Lemma digit_char_value d : 0 <= d <= 9 -> Z.of_nat (nat_of_ascii (digit_char d)) - 48 = d.
Proof.
  intros Hd. assert (d = 0 \/ d = 1 \/ d = 2 \/ d = 3 \/ d = 4 \/ d = 5 \/ d = 6 \/ d = 7
                     \/ d = 8 \/ d = 9) as Hc by lia.
  repeat destruct Hc as [->|Hc]; try subst d; reflexivity.
Qed.

Lemma all_digits_app s1 s2 :
  all_digits (s1 ++ s2) = all_digits s1 && all_digits s2.
Proof. induction s1 as [|c s1 IH]; simpl; [reflexivity|]. rewrite IH. apply andb_assoc. Qed.

Lemma decimal_value_from_app acc s1 s2 :
  decimal_value_from acc (s1 ++ s2) = decimal_value_from (decimal_value_from acc s1) s2.
Proof. revert acc. induction s1 as [|c s1 IH]; intros acc; simpl; [reflexivity|]. apply IH. Qed.

Lemma string_length_app (s1 s2 : string) :
  String.length (s1 ++ s2) = (String.length s1 + String.length s2)%nat.
Proof. induction s1 as [|c s1 IH]; simpl; [reflexivity|]. rewrite IH. reflexivity. Qed.

Lemma decimal_go_unfold fuel n :
  decimal_go (S fuel) n =
  if n <? 10 then String (digit_char n) EmptyString
  else (decimal_go fuel (n / 10) ++ String (digit_char (n mod 10)) EmptyString)%string.
Proof. reflexivity. Qed.

(** With enough fuel the digits are decimal digits and denote [n]. *)
Lemma decimal_go_sound fuel n :
  0 <= n < 2 ^ Z.of_nat fuel -> (0 < fuel)%nat ->
  all_digits (decimal_go fuel n) = true /\ decimal_value (decimal_go fuel n) = n.
Proof.
  revert n. induction fuel as [|fuel IH]; intros n Hn Hf; [lia|].
  rewrite decimal_go_unfold.
  destruct (Z.ltb_spec n 10) as [Hlt|Hge].
  - unfold decimal_value. cbn [all_digits decimal_value_from].
    rewrite digit_char_is_digit, digit_char_value by lia. split; [reflexivity|lia].
  - rewrite Nat2Z.inj_succ, Z.pow_succ_r in Hn by lia.
    assert (0 <= n / 10 < 2 ^ Z.of_nat fuel) as Hq.
    { split; [apply Z.div_pos; lia|]. apply Z.div_lt_upper_bound; lia. }
    assert (0 < fuel)%nat as Hf'.
    { destruct fuel; [|lia]. change (2 ^ Z.of_nat 0) with 1 in Hn. lia. }
    destruct (IH _ Hq Hf') as [Hd Hv].
    pose proof (Z.mod_pos_bound n 10 ltac:(lia)) as Hm.
    split.
    + rewrite all_digits_app, Hd. cbn [all_digits].
      rewrite digit_char_is_digit by lia. reflexivity.
    + unfold decimal_value in *. rewrite decimal_value_from_app, Hv.
      cbn [decimal_value_from].
      rewrite digit_char_value by lia. pose proof (Z.div_mod n 10 ltac:(lia)). lia.
Qed.

Lemma decimal_go_length fuel n k :
  10 ^ Z.of_nat k <= n < 10 ^ Z.of_nat (S k) -> (k < fuel)%nat ->
  String.length (decimal_go fuel n) = S k.
Proof.
  revert fuel n. induction k as [|k IH]; intros fuel n Hn Hf;
    (destruct fuel as [|fuel]; [lia|]); rewrite decimal_go_unfold.
  - change (10 ^ Z.of_nat 1) with 10 in Hn.
    destruct (Z.ltb_spec n 10); [reflexivity|lia].
  - rewrite !Nat2Z.inj_succ, !Z.pow_succ_r in Hn by lia.
    assert (0 < 10 ^ Z.of_nat k) by (apply Z.pow_pos_nonneg; lia).
    destruct (Z.ltb_spec n 10) as [Hlt|Hge]; [lia|].
    rewrite string_length_app. cbn [String.length].
    rewrite (IH fuel (n / 10)); [lia| |lia].
    rewrite Nat2Z.inj_succ, Z.pow_succ_r by lia.
    split; [apply Z.div_le_lower_bound; lia|apply Z.div_lt_upper_bound; lia].
Qed.

Lemma Number_toString_sound n :
  0 <= n ->
  all_digits (Number_toString n) = true /\ decimal_value (Number_toString n) = n.
Proof.
  intros Hn. unfold Number_toString. apply decimal_go_sound; [|lia].
  split; [assumption|].
  rewrite Nat2Z.inj_succ, Z2Nat.id by apply Z.log2_nonneg.
  destruct (Z.eq_dec n 0) as [->|Hnz]; [reflexivity|].
  apply Z.log2_spec. lia.
Qed.

Lemma Number_toString_six n :
  100000 <= n <= 999999 -> String.length (Number_toString n) = 6%nat.
Proof.
  intros Hn. unfold Number_toString. apply (decimal_go_length _ n 5).
  - change (10 ^ Z.of_nat 5) with 100000. change (10 ^ Z.of_nat 6) with 1000000. lia.
  - pose proof (Z.log2_le_mono 100000 n ltac:(lia)) as Hl.
    change (Z.log2 100000) with 16 in Hl. lia.
Qed.


(** The model of the two operations agrees with the Standard Library's
    IEEE-754 specification on every sample. *)
Example F64_agrees_with_SpecFloat : forallb F64Check.agrees F64Check.samples = true.
Proof. vm_compute. reflexivity. Qed.

Example generate_code_zero : generate_code 0 = "100000"%string.
Proof. vm_compute. reflexivity. Qed.

Example generate_code_half : generate_code (2 ^ 1073) = "550000"%string.
Proof. vm_compute. reflexivity. Qed.

Example generate_code_pred_one : generate_code F64.pred_one = "999999"%string.
Proof. vm_compute. reflexivity. Qed.

(** C7. Whatever double in [[0, 1)] [Math.random()] returns, the generated
    access code is a string of six decimal digits whose value lies in
    [[100000, 999999]]. *)
Theorem generate_code_six_digits (random : Z) :
  F64.is_random random -> six_digits (generate_code random).
Proof.
  intros Hr. pose proof (code_number_range random Hr) as Hrange.
  unfold six_digits, generate_code.
  destruct (Number_toString_sound (code_number random) ltac:(lia)) as [Hd Hv].
  rewrite Hv, Hd, Number_toString_six by assumption. auto.
Qed.

Lemma generate_code_six_digits_witness :
  F64.is_random (2 ^ 1073) /\ six_digits (generate_code (2 ^ 1073)).
Proof.
  assert (F64.is_random (2 ^ 1073)) as Hr by (split; vm_compute; reflexivity).
  split; [exact Hr | exact (generate_code_six_digits (2 ^ 1073) Hr)].
Defined.

(** ** Strings and lists *)

Lemma has_char_app c s1 s2 :
  has_char c (s1 ++ s2) = has_char c s1 || has_char c s2.
Proof.
  induction s1 as [|c1 s1 IH]; simpl; [reflexivity|].
  rewrite IH. apply orb_assoc.
Qed.

Lemma split_on_cons sep s :
  exists h t, split_on sep s = h :: t.
Proof.
  destruct s as [|c s]; cbn [split_on]; [eauto|].
  destruct (Ascii.eqb c sep); [eauto|].
  destruct (split_on sep s); eauto.
Qed.

Lemma split_on_app sep a b :
  has_char sep a = false ->
  split_on sep (a ++ String sep b) = a :: split_on sep b.
Proof.
  induction a as [|c a IH]; simpl; intros Ha.
  - rewrite Ascii.eqb_refl. reflexivity.
  - apply orb_false_elim in Ha as [Hc Ha].
    rewrite Hc, (IH Ha). reflexivity.
Qed.

Lemma split_on_absent sep a :
  has_char sep a = false -> split_on sep a = [a].
Proof.
  induction a as [|c a IH]; cbn [has_char split_on]; intros Ha; [reflexivity|].
  apply orb_false_elim in Ha as [Hc Ha].
  rewrite Hc, (IH Ha). reflexivity.
Qed.

Lemma all_digits_has_char c s :
  is_digit c = false -> all_digits s = true -> has_char c s = false.
Proof.
  intros Hc. induction s as [|d s IH]; cbn [all_digits has_char]; [reflexivity|].
  intros Hs. apply andb_prop in Hs as [Hd Hs]. rewrite (IH Hs), orb_false_r.
  destruct (Ascii.eqb_spec d c) as [->|]; [congruence|reflexivity].
Qed.

Lemma prefix_app s t : String.prefix s (s ++ t) = true.
Proof.
  induction s as [|c s IH]; simpl; [destruct t; reflexivity|].
  destruct (ascii_dec c c); [exact IH|contradiction].
Qed.

Lemma Number_toString_nonempty n : Number_toString n <> EmptyString.
Proof.
  unfold Number_toString. rewrite decimal_go_unfold.
  destruct (n <? 10); [discriminate|].
  destruct (decimal_go _ _); discriminate.
Qed.

Lemma find_app {A} (f : A -> bool) l1 l2 :
  find f (l1 ++ l2) = match find f l1 with Some x => Some x | None => find f l2 end.
Proof.
  induction l1 as [|x l1 IH]; cbn [find app]; [reflexivity|].
  destruct (f x); [reflexivity|exact IH].
Qed.

Lemma filter_app_length {A} (f : A -> bool) l1 l2 :
  length (List.filter f (l1 ++ l2)) = (length (List.filter f l1) + length (List.filter f l2))%nat.
Proof. rewrite List.filter_app, length_app. reflexivity. Qed.

Lemma generate_code_shape random :
  F64.is_random random -> six_digits (generate_code random).
Proof.
  intros Hr. pose proof (code_number_range random Hr) as Hrange.
  destruct (Number_toString_sound (code_number random) ltac:(lia)) as [Hd Hv].
  repeat split; unfold generate_code; try rewrite Hv; try lia;
    [apply Number_toString_six; exact Hrange|exact Hd].
Qed.

(** ** Queries and the authentication middleware *)

Section AppFacts.
Context `{Bcrypt} `{JsonWebToken} `{FileSystem} `{ProcessEnv}.

Lemma strict_eq_string_true s v : strict_eq_string s v = true <-> v = JStr s.
Proof.
  destruct v; cbn [strict_eq_string]; try (split; [discriminate|congruence]).
  destruct (String.eqb_spec s s0) as [->|Hne]; split; congruence.
Qed.

Lemma deleteOne_In file_id l f : In f (deleteOne file_id l) -> In f l.
Proof.
  induction l as [|g l IH]; cbn [deleteOne]; [tauto|].
  destruct (N.eqb (File._id g) file_id); cbn [In]; tauto.
Qed.

Lemma deleteOne_NoDup file_id l :
  NoDup (map File._id l) -> NoDup (map File._id (deleteOne file_id l)).
Proof.
  induction l as [|g l IH]; cbn [deleteOne map]; [tauto|].
  rewrite NoDup_cons. intros [Hg Hl].
  destruct (N.eqb (File._id g) file_id); [exact Hl|].
  cbn [map]. rewrite NoDup_cons. split; [|exact (IH Hl)].
  rewrite list_elem_of_In, in_map_iff in *.
  intros (f & Hf & Hin). apply Hg. exists f. eauto using deleteOne_In.
Qed.

Lemma find_id_absent file_id l :
  ~ In file_id (map File._id l) ->
  find (fun f => N.eqb (File._id f) file_id) l = None.
Proof.
  intros Hnot. destruct (find _ l) as [f|] eqn:Hfind; [|reflexivity].
  apply find_some in Hfind as [Hin Heq]. apply N.eqb_eq in Heq.
  exfalso. apply Hnot. rewrite in_map_iff. eauto.
Qed.

Lemma deleteOne_find file_id l :
  NoDup (map File._id l) ->
  find (fun f => N.eqb (File._id f) file_id) (deleteOne file_id l) = None.
Proof.
  induction l as [|g l IH]; cbn [deleteOne map]; [reflexivity|].
  rewrite NoDup_cons, list_elem_of_In. intros [Hg Hl].
  destruct (N.eqb_spec (File._id g) file_id) as [Heq|Hne].
  - apply find_id_absent. congruence.
  - cbn [find]. destruct (N.eqb_spec (File._id g) file_id); [contradiction|]. exact (IH Hl).
Qed.

Lemma unique_id_same_file l (f g : File.t) :
  NoDup (map File._id l) -> In f l -> In g l -> File._id f = File._id g -> f = g.
Proof.
  induction l as [|x l IH]; cbn [map In]; [tauto|].
  rewrite NoDup_cons, list_elem_of_In, in_map_iff.
  intros [Hx Hl] [->|Hf] [->|Hg] Hid; [reflexivity| | |exact (IH Hl Hf Hg Hid)];
    exfalso; apply Hx; eauto.
Qed.

Lemma File_find_spec owner s f :
  In f (File_find owner s) <-> In f (files s) /\ File.uploadedBy f = owner.
Proof. unfold File_find. rewrite List.filter_In, N.eqb_eq. reflexivity. Qed.

Lemma File_toJSON_inj f g : File.toJSON f = File.toJSON g -> f = g.
Proof. destruct f, g. unfold File.toJSON. cbn. intros Heq. injection Heq. congruence. Qed.

(** A foreign or missing id gives the ownership-scoped query nothing. *)
Lemma File_findOne_foreign s file_id owner file :
  unique_file_ids s -> File_findById file_id s = Some file ->
  File.uploadedBy file <> owner -> File_findOne file_id owner s = None.
Proof.
  unfold unique_file_ids, File_findById, File_findOne. intros Huniq Hfind Hother.
  destruct (find _ (files s)) as [g|] eqn:Hone in |- *; [|reflexivity].
  apply find_some in Hfind as [Hin Hid]. apply find_some in Hone as [Hin' Hboth].
  apply andb_prop in Hboth as [Hid' Hown]. apply N.eqb_eq in Hid, Hid', Hown.
  assert (g = file) by (eapply unique_id_same_file; eauto; congruence).
  congruence.
Qed.

Lemma File_findOne_absent s file_id owner :
  File_findById file_id s = None -> File_findOne file_id owner s = None.
Proof.
  unfold File_findById, File_findOne. intros Hnone.
  destruct (find _ (files s)) as [g|] eqn:Hone in |- *; [|reflexivity].
  apply find_some in Hone as [Hin Hboth]. apply andb_prop in Hboth as [Hid _].
  pose proof (find_none _ _ Hnone g Hin) as Hno. cbv beta in Hno. congruence.
Qed.

(** The header [Bearer <token>] of a token this server signed. *)
Lemma authMiddleware_bearer `{!JwtCorrect} user_id now :
  authMiddleware (Some ("Bearer " ++ jwt_sign user_id now JWT_SECRET)%string)
  = Next {| id := user_id; iat := (now / 1000)%N |}.
Proof.
  unfold authMiddleware.
  change ("Bearer " ++ jwt_sign user_id now JWT_SECRET)%string
    with ("Bearer" ++ String " " (jwt_sign user_id now JWT_SECRET))%string.
  rewrite split_on_app by reflexivity.
  rewrite split_on_absent by apply jwt_sign_no_space.
  cbn [nth_error].
  pose proof (jwt_sign_nonempty user_id now JWT_SECRET) as Hne.
  pose proof (jwt_verify_sign user_id now JWT_SECRET) as Hv.
  destruct (jwt_sign user_id now JWT_SECRET) as [|c t]; [contradiction|].
  rewrite Hv. reflexivity.
Qed.

(** ** Reachable states *)

Lemma server_invariant_start d : server_invariant (start d).
Proof.
  unfold server_invariant, unique_file_ids. cbn. split; [constructor|]. split; tauto.
Qed.

Lemma server_invariant_upload_handler s user file t_doc random :
  server_invariant s -> F64.is_random random ->
  server_invariant (fst (upload_handler s user file t_doc random)).
Proof.
  intros (Huniq & Hbelow & Hcodes) Hrandom. unfold upload_handler.
  destruct file as [f|]; [|cbn [fst]; unfold server_invariant; auto].
  unfold server_invariant, unique_file_ids in *. cbn [fst files next_id].
  split; [|split].
  - rewrite map_app. cbn [map]. rewrite NoDup_app. split; [exact Huniq|].
    split; [|apply NoDup_singleton].
    intros x Hx. rewrite list_elem_of_In in Hx. rewrite in_map_iff in Hx.
    destruct Hx as (g & <- & Hg). specialize (Hbelow g Hg).
    rewrite list_elem_of_In. cbn [In File._id]. lia.
  - intros g Hg. apply in_app_or in Hg as [Hg|[<-|[]]].
    + specialize (Hbelow g Hg). lia.
    + cbn [File._id]. lia.
  - intros g Hg. apply in_app_or in Hg as [Hg|[<-|[]]].
    + exact (Hcodes g Hg).
    + cbn [File.code]. apply generate_code_shape. exact Hrandom.
Qed.

Lemma server_invariant_handle s req :
  server_invariant s -> admissible req -> server_invariant (fst (handle s req)).
Proof.
  intros Hinv Hadm. destruct req; cbn [handle fst]; try exact Hinv.
  - destruct Hinv as (Huniq & Hbelow & Hcodes).
    unfold server_invariant, unique_file_ids, register. cbn [fst files next_id].
    split; [exact Huniq|]. split; [|exact Hcodes].
    intros f Hf. specialize (Hbelow f Hf). lia.
  - unfold upload. destruct (authMiddleware authorization); [|exact Hinv].
    destruct (upload_single t_store part (disk s)) as [d [file|o]].
    + apply server_invariant_upload_handler; [exact Hinv|exact Hadm].
    + exact Hinv.
  - unfold delete_file. destruct (authMiddleware authorization); [|exact Hinv].
    destruct (File_findOne file_id (id a) s) as [file|]; [|exact Hinv].
    destruct (fs_unlinkSync _ _) as [d o]. cbn [fst].
    destruct Hinv as (Huniq & Hbelow & Hcodes).
    unfold server_invariant, unique_file_ids in *. cbn [files next_id].
    split; [apply deleteOne_NoDup; exact Huniq|].
    split; intros f Hf; apply deleteOne_In in Hf; auto.
Qed.

Lemma reachable_invariant s : reachable s -> server_invariant s.
Proof.
  induction 1 as [d|s req _ IH Hadm];
    [apply server_invariant_start|apply server_invariant_handle; assumption].
Qed.

Lemma download_undefined s file_id : download s file_id JUndefined = invalid_code.
Proof. unfold download. destruct (File_findById file_id s); reflexivity. Qed.

End AppFacts.

(** ** Properties of the routes *)

Section Routes.
Context `{Bcrypt} `{JsonWebToken} `{FileSystem} `{ProcessEnv}.

(** The code check of the download handler: a request gets past it to
    [res.download] exactly when a file with the given id is found and the
    supplied code is the string stored with it; a missing file and a wrong
    code are answered with the same 403 [Invalid code] response.  What
    [res.download] then answers is the matter of [download_route]. *)
Theorem download_iff_code_matches (s : Server) (file_id : ObjectId) (code : JsVal) :
  (download_succeeds (download s file_id code) <->
   exists file, File_findById file_id s = Some file /\ code = JStr (File.code file))
  /\ (forall file, File_findById file_id s = Some file -> code = JStr (File.code file) ->
      download s file_id code = Sent (res_download (File.filepath file)))
  /\ (File_findById file_id s = None -> download s file_id code = invalid_code)
  /\ (forall file, File_findById file_id s = Some file -> code <> JStr (File.code file) ->
      download s file_id code = invalid_code).
Proof.
  unfold download, download_succeeds, invalid_code.
  destruct (File_findById file_id s) as [file|].
  - destruct (strict_eq_string (File.code file) code) eqn:Heq; cbn [negb].
    + apply strict_eq_string_true in Heq. subst code.
      repeat split; try congruence; eauto.
    + assert (code <> JStr (File.code file)) as Hne.
      { intros ->. rewrite (proj2 (strict_eq_string_true _ _) eq_refl) in Heq. discriminate. }
      repeat split; try congruence.
      * intros [path Hpath]. discriminate.
      * intros (file' & Hfile & Hcode). congruence.
  - repeat split; try congruence.
    + intros [path Hpath]. discriminate.
    + intros (file' & Hfile & _). discriminate.
Qed.

(** C2 (amended). For a username that no record carries yet, registering and
    then logging in with the same credentials succeeds, and the token of the
    login resolves in [authMiddleware] to the id of the record the registration
    created. *)
Theorem register_then_login `{!BcryptCorrect} `{!JwtCorrect}
        (s : Server) (username password salt : string) (now : N) :
  User_findOne username s = None ->
  register_login_roundtrip s username password salt now.
Proof.
  intros Hfresh. unfold register_login_roundtrip, register. cbn [fst users].
  eexists _, (jwt_sign (next_id s) now JWT_SECRET).
  split; [reflexivity|]. cbn [User.username User._id]. split; [reflexivity|].
  split.
  - unfold login, User_findOne in *. cbn [users].
    rewrite find_app, Hfresh. cbn [find User.username].
    rewrite String.eqb_refl. cbn [User.password User._id].
    rewrite bcrypt_compare_hash. reflexivity.
  - eexists. split; [apply authMiddleware_bearer|reflexivity].
Qed.

(** C3. After an upload by an authenticated user, the new document is in the
    listing of every caller who resolves to the uploader's id and in no other
    caller's listing; a listing holds exactly the documents whose [uploadedBy]
    is the caller's id. *)
Theorem upload_then_list (s : Server) (authorization : option string)
        (originalname : string) (content : list Byte.byte) (t_store t_doc : N) (random : Z)
        (uploader : Decoded) (d : Disk) :
  authMiddleware authorization = Next uploader ->
  disk_write (storage_destination ++ storage_filename t_store originalname)%string
             content (disk s) = (d, Returned tt) ->
  exists doc s',
    fst (upload s authorization (Some (originalname, content)) t_store t_doc random) = s' /\
    files s' = files s ++ [doc] /\
    File._id doc = next_id s /\
    File.uploadedBy doc = id uploader /\
    forall (auth : option string) (caller : Decoded),
      authMiddleware auth = Next caller ->
      list_files s' auth = Sent (res_json (JArr (map File.toJSON (File_find (id caller) s')))) /\
      (forall f, In f (File_find (id caller) s') <->
                 In f (files s') /\ File.uploadedBy f = id caller) /\
      (id caller = id uploader ->
       In (File.toJSON doc) (map File.toJSON (File_find (id caller) s'))) /\
      (id caller <> id uploader ->
       ~ In (File.toJSON doc) (map File.toJSON (File_find (id caller) s'))).
Proof.
  intros Hauth Hwrite. unfold upload, upload_single. rewrite Hauth, Hwrite.
  unfold upload_handler. cbn [fst users files disk next_id req_filename req_path].
  eexists _, _. split; [reflexivity|]. cbn [files File._id File.uploadedBy].
  repeat (split; [reflexivity|]).
  intros auth caller Hcaller. unfold list_files. rewrite Hcaller.
  split; [reflexivity|]. split; [intros f; apply File_find_spec|].
  split.
  - intros Hsame. apply in_map. apply File_find_spec. cbn [files File.uploadedBy].
    split; [apply in_or_app; right; left; reflexivity|congruence].
  - intros Hother Hin. apply in_map_iff in Hin as (f & Hjson & Hf).
    apply File_toJSON_inj in Hjson. subst f.
    apply File_find_spec in Hf as [_ Hown]. cbn [File.uploadedBy] in Hown. congruence.
Qed.

(** C4 (amended). [register] has no uniqueness check: it always answers
    [User registered] and appends one record, so registering a username that
    is already taken adds a further record with that username. *)
Theorem register_accepts_duplicates (s : Server) (username password salt : string) :
  snd (register s username password salt) = Sent (res_json (message_body "User registered")) /\
  users (fst (register s username password salt))
  = users s ++ [{| User._id := next_id s; User.username := username;
                   User.password := bcrypt_hash password 10 salt |}] /\
  count_username username (fst (register s username password salt))
  = S (count_username username s).
Proof.
  unfold register, count_username. cbn [fst snd users].
  split; [reflexivity|]. split; [reflexivity|].
  rewrite filter_app_length. cbn [List.filter User.username].
  rewrite String.eqb_refl. cbn [length]. lia.
Qed.

(** C5 (amended). A failed login answers 401 in both cases, but with
    different bodies: [User not found] when no record carries the username,
    [Invalid password] when one does and the password does not match. *)
Theorem login_failure_names_the_cause (s : Server) (username password : string) (now : N) :
  (User_findOne username s = None ->
   login s username password now = Sent (res_status_json 401 (error_body "User not found")))
  /\ (forall user, User_findOne username s = Some user ->
                   bcrypt_compare password (User.password user) = false ->
                   login s username password now
                   = Sent (res_status_json 401 (error_body "Invalid password")))
  /\ Sent (res_status_json 401 (error_body "User not found"))
     <> Sent (res_status_json 401 (error_body "Invalid password")).
Proof.
  unfold login. split; [intros ->; reflexivity|].
  split; [intros user -> ->; reflexivity|discriminate].
Qed.

(** C6 (amended). For an authenticated caller the listing is the array of the
    caller's stored documents as they are: every item has the keys [_id],
    [filename], [filepath], [uploadedBy], [code], [uploadedAt] and [__v], and
    its [code] and [filepath] are the file's access code and storage
    location. *)
Theorem list_files_returns_documents (s : Server) (authorization : option string)
        (caller : Decoded) :
  authMiddleware authorization = Next caller ->
  list_files s authorization
  = Sent (res_json (JArr (map File.toJSON (File_find (id caller) s)))) /\
  listing_has_shape ["_id"; "filename"; "filepath"; "uploadedBy"; "code"; "uploadedAt"; "__v"]%string
                    (list_files s authorization) /\
  forall f, In f (File_find (id caller) s) ->
            js_field "code" (File.toJSON f) = Some (JStr (File.code f)) /\
            js_field "filepath" (File.toJSON f) = Some (JStr (File.filepath f)).
Proof.
  intros Hauth. unfold list_files, listing_has_shape. rewrite Hauth.
  split; [reflexivity|]. split.
  - eexists. split; [reflexivity|]. intros item Hin.
    apply in_map_iff in Hin as (f & <- & _). reflexivity.
  - intros f _. split; reflexivity.
Qed.

(** C8. Deleting a file that belongs to somebody else answers 404
    [File not found] and leaves the server state (records and disk) as it was;
    the answer is the one a nonexistent id gets. *)
Theorem delete_foreign_file_not_found (s : Server) (authorization : option string)
        (caller : Decoded) (file_id : ObjectId) (file : File.t) :
  unique_file_ids s ->
  authMiddleware authorization = Next caller ->
  File_findById file_id s = Some file ->
  File.uploadedBy file <> id caller ->
  delete_file s authorization file_id
  = (s, Sent (res_status_json 404 (error_body "File not found"))) /\
  forall absent, File_findById absent s = None ->
                 delete_file s authorization absent
                 = (s, Sent (res_status_json 404 (error_body "File not found"))).
Proof.
  intros Huniq Hauth Hfile Hother. unfold delete_file. rewrite Hauth. split.
  - rewrite (File_findOne_foreign s file_id (id caller) file) by assumption. reflexivity.
  - intros absent Habsent. rewrite File_findOne_absent by assumption. reflexivity.
Qed.

(** C9. When the owner deletes a file, whatever [fs.unlinkSync] does (return or
    throw), the record is deleted and the answer is [File deleted]. *)
Theorem delete_ignores_unlink_outcome (s : Server) (authorization : option string)
        (caller : Decoded) (file_id : ObjectId) (file : File.t)
        (d : Disk) (outcome : Completion unit) :
  authMiddleware authorization = Next caller ->
  File_findOne file_id (id caller) s = Some file ->
  fs_unlinkSync (File.filepath file) (disk s) = (d, outcome) ->
  delete_file s authorization file_id
  = ({| users := users s; files := deleteOne (File._id file) (files s); disk := d;
        next_id := next_id s |},
     Sent (res_json (message_body "File deleted"))) /\
  (unique_file_ids s ->
   File_findById file_id (fst (delete_file s authorization file_id)) = None).
Proof.
  intros Hauth Hfile Hunlink. unfold delete_file. rewrite Hauth, Hfile, Hunlink.
  split; [reflexivity|]. intros Huniq. unfold File_findById. cbn [fst files].
  unfold File_findOne in Hfile. apply find_some in Hfile as [_ Hboth].
  apply andb_prop in Hboth as [Hid _]. apply N.eqb_eq in Hid. rewrite Hid.
  apply deleteOne_find. exact Huniq.
Qed.

(** C10. In every reachable state every stored access code is a non-empty
    string of six digits, and a download request without a code is answered
    with 403 [Invalid code] for every stored file. *)
Theorem download_without_code_rejected (s : Server) (file : File.t) :
  reachable s -> In file (files s) ->
  six_digits (File.code file) /\
  File.code file <> EmptyString /\
  download s (File._id file) JUndefined = invalid_code.
Proof.
  intros Hreach Hin.
  destruct (reachable_invariant s Hreach) as (_ & _ & Hcodes).
  pose proof (Hcodes file Hin) as Hsix. split; [exact Hsix|]. split.
  - destruct Hsix as (Hlen & _). intros Hempty. rewrite Hempty in Hlen. discriminate.
  - apply download_undefined.
Qed.

End Routes.

(** ** The reference instances meet the contracts *)

Module ReferenceFacts.
Import Reference.

#[export] Instance bcrypt_correct : BcryptCorrect.
Proof. split. intros data rounds salt. apply prefix_app. Qed.

Lemma key_tag_from_nonneg secret acc : 0 <= acc -> 0 <= key_tag_from acc secret.
Proof.
  revert acc. induction secret as [|c secret IH]; intros acc Hacc; cbn [key_tag_from];
    [assumption|apply IH; lia].
Qed.

Lemma is_number_toString n : 0 <= n -> is_number (Number_toString n) = true.
Proof.
  intros Hn. unfold is_number.
  rewrite (proj1 (Number_toString_sound n Hn)).
  destruct (String.eqb_spec (Number_toString n) EmptyString) as [Hempty|_]; [|reflexivity].
  exfalso. exact (Number_toString_nonempty n Hempty).
Qed.

Lemma toString_has_no (c : ascii) n :
  0 <= n -> is_digit c = false -> has_char c (Number_toString n) = false.
Proof.
  intros Hn Hc. apply all_digits_has_char; [exact Hc|].
  exact (proj1 (Number_toString_sound n Hn)).
Qed.

Lemma sign_shape user_id now secret :
  jwt_sign user_id now secret
  = (Number_toString (Z.of_N user_id) ++
     String "." (Number_toString (Z.of_N (now / 1000)) ++
                 String "." (Number_toString (key_tag secret))))%string.
Proof. reflexivity. Qed.

#[export] Instance jsonwebtoken_correct : JwtCorrect.
Proof.
  split; intros user_id now secret; rewrite sign_shape;
    pose proof (N2Z.is_nonneg user_id) as Hid;
    pose proof (N2Z.is_nonneg (now / 1000)) as Hiat;
    pose proof (key_tag_from_nonneg secret 0 ltac:(lia)) as Htag; fold (key_tag secret) in Htag.
  - cbn [jwt_verify jsonwebtoken].
    rewrite split_on_app by (apply toString_has_no; [assumption|reflexivity]).
    rewrite split_on_app by (apply toString_has_no; [assumption|reflexivity]).
    rewrite split_on_absent by (apply toString_has_no; [assumption|reflexivity]).
    rewrite !is_number_toString by assumption.
    rewrite (proj2 (Number_toString_sound _ Hid)), (proj2 (Number_toString_sound _ Hiat)),
      (proj2 (Number_toString_sound _ Htag)).
    rewrite Z.eqb_refl, !N2Z.id. reflexivity.
  - destruct (Number_toString (Z.of_N user_id)) eqn:Hs; [|discriminate].
    exfalso. exact (Number_toString_nonempty _ Hs).
  - rewrite has_char_app. cbn [has_char]. rewrite has_char_app. cbn [has_char].
    rewrite !toString_has_no by (assumption || reflexivity). reflexivity.
Qed.

End ReferenceFacts.

(** ** The properties on the sample run *)

Module Scenario.
Import Reference ReferenceFacts.

Lemma alice_authenticates : authMiddleware (bearer alice_token) = Next alice.
Proof. vm_compute. reflexivity. Qed.

Lemma bob_authenticates : authMiddleware (bearer bob_token) = Next bob.
Proof. vm_compute. reflexivity. Qed.

Lemma s3_files : files s3 = [a_txt_doc].
Proof. vm_compute. reflexivity. Qed.

Lemma s1_run : fst (handle s0 register_alice) = s1.
Proof. vm_compute. reflexivity. Qed.

Lemma s2_run : fst (handle s1 register_bob) = s2.
Proof. vm_compute. reflexivity. Qed.

Lemma s3_run : fst (handle s2 upload_a_txt) = s3.
Proof. vm_compute. reflexivity. Qed.

Lemma s3_reachable : reachable s3.
Proof.
  rewrite <- s3_run. apply reachable_step.
  - rewrite <- s2_run. apply reachable_step; [|exact I].
    rewrite <- s1_run. apply reachable_step; [|exact I].
    apply reachable_start.
  - split; vm_compute; reflexivity.
Qed.

Lemma s3_unique_file_ids : unique_file_ids s3.
Proof. unfold unique_file_ids. rewrite s3_files. apply NoDup_singleton. Qed.

Example download_with_the_code :
  download s3 2%N (JStr "550000") = Sent (res_download "uploads/1700000002000-a.txt").
Proof. vm_compute. reflexivity. Qed.

Example download_with_another_code : download s3 2%N (JStr "000000") = invalid_code.
Proof. vm_compute. reflexivity. Qed.

Example download_of_a_missing_file : download s3 9%N (JStr "550000") = invalid_code.
Proof. vm_compute. reflexivity. Qed.

Lemma register_then_login_witness :
  User_findOne "bob" s1 = None /\
  register_login_roundtrip s1 "bob" "hunter2" "salt-b" 1700000001000.
Proof.
  assert (User_findOne "bob" s1 = None) as Hfresh by (vm_compute; reflexivity).
  split; [exact Hfresh|].
  exact (register_then_login s1 "bob" "hunter2" "salt-b" 1700000001000 Hfresh).
Defined.

(** A second [alice] with another password cannot log in: the lookup returns
    the first record. *)
Lemma register_then_login_taken_name :
  login (fst (register s1 "alice" "letmein" "salt-c")) "alice" "letmein" 1700000003000
  = Sent (res_status_json 401 (error_body "Invalid password")) /\
  ~ register_login_roundtrip s1 "alice" "letmein" "salt-c" 1700000003000.
Proof.
  assert (login (fst (register s1 "alice" "letmein" "salt-c")) "alice" "letmein" 1700000003000
          = Sent (res_status_json 401 (error_body "Invalid password"))) as Hlogin
      by (vm_compute; reflexivity).
  split; [exact Hlogin|].
  intros (user & token & _ & _ & Htoken & _). rewrite Hlogin in Htoken. discriminate.
Qed.

(** With the first record's password the login succeeds, but the token is
    the first record's, not the new one's. *)
Example second_alice_gets_first_id :
  map User._id (users (fst (register s1 "alice" "p@ss1" "salt-e"))) = [0%N; 1%N] /\
  authMiddleware
    (bearer (token_of (login (fst (register s1 "alice" "p@ss1" "salt-e"))
                             "alice" "p@ss1" 1700000003000)))
  = Next {| id := 0%N; iat := 1700000003%N |}.
Proof. split; vm_compute; reflexivity. Qed.

Lemma upload_then_list_witness :
  authMiddleware (bearer alice_token) = Next alice /\
  disk_write (storage_destination ++ storage_filename 1700000002000 "a.txt")%string
             a_txt (disk s2)
  = (<["uploads/1700000002000-a.txt"%string := a_txt]> (disk s2), Returned tt) /\
  exists doc s',
    fst (upload s2 (bearer alice_token) (Some ("a.txt"%string, a_txt))
                1700000002000 1700000002005 (2 ^ 1073)) = s' /\
    files s' = files s2 ++ [doc] /\
    File._id doc = next_id s2 /\
    File.uploadedBy doc = id alice /\
    forall (auth : option string) (caller : Decoded),
      authMiddleware auth = Next caller ->
      list_files s' auth = Sent (res_json (JArr (map File.toJSON (File_find (id caller) s')))) /\
      (forall f, In f (File_find (id caller) s') <->
                 In f (files s') /\ File.uploadedBy f = id caller) /\
      (id caller = id alice ->
       In (File.toJSON doc) (map File.toJSON (File_find (id caller) s'))) /\
      (id caller <> id alice ->
       ~ In (File.toJSON doc) (map File.toJSON (File_find (id caller) s'))).
Proof.
  assert (disk_write (storage_destination ++ storage_filename 1700000002000 "a.txt")%string
                     a_txt (disk s2)
          = (<["uploads/1700000002000-a.txt"%string := a_txt]> (disk s2), Returned tt))
    as Hwrite by (vm_compute; reflexivity).
  split; [exact alice_authenticates|]. split; [exact Hwrite|].
  exact (upload_then_list s2 (bearer alice_token) "a.txt" a_txt 1700000002000 1700000002005
                          (2 ^ 1073) alice _ alice_authenticates Hwrite).
Defined.

(** Registering [alice] a second time is answered like the first time and
    leaves two records with that name. *)
Lemma duplicate_register_accepted :
  snd (register s1 "alice" "again" "salt-d") = Sent (res_json (message_body "User registered")) /\
  count_username "alice" s1 = 1%nat /\
  count_username "alice" (fst (register s1 "alice" "again" "salt-d")) = 2%nat /\
  ~ is_failure (snd (register s1 "alice" "again" "salt-d")).
Proof.
  repeat split; try (vm_compute; reflexivity).
  cbn [register snd is_failure res_json status]. lia.
Qed.

(** An unknown user and a wrong password get different answers. *)
Lemma login_failures_differ :
  User_findOne "carol" s2 = None /\
  login s2 "carol" "nope" 1700000004000
  = Sent (res_status_json 401 (error_body "User not found")) /\
  login s2 "alice" "nope" 1700000004000
  = Sent (res_status_json 401 (error_body "Invalid password")) /\
  login s2 "carol" "nope" 1700000004000 <> login s2 "alice" "nope" 1700000004000.
Proof.
  assert (login s2 "carol" "nope" 1700000004000
          = Sent (res_status_json 401 (error_body "User not found"))) as Hcarol
      by (vm_compute; reflexivity).
  assert (login s2 "alice" "nope" 1700000004000
          = Sent (res_status_json 401 (error_body "Invalid password"))) as Halice
      by (vm_compute; reflexivity).
  split; [vm_compute; reflexivity|]. split; [exact Hcarol|]. split; [exact Halice|].
  rewrite Hcarol, Halice. discriminate.
Qed.

Lemma list_files_returns_documents_witness :
  authMiddleware (bearer alice_token) = Next alice /\
  list_files s3 (bearer alice_token)
  = Sent (res_json (JArr (map File.toJSON (File_find (id alice) s3)))) /\
  listing_has_shape ["_id"; "filename"; "filepath"; "uploadedBy"; "code"; "uploadedAt"; "__v"]%string
                    (list_files s3 (bearer alice_token)) /\
  forall f, In f (File_find (id alice) s3) ->
            js_field "code" (File.toJSON f) = Some (JStr (File.code f)) /\
            js_field "filepath" (File.toJSON f) = Some (JStr (File.filepath f)).
Proof.
  split; [exact alice_authenticates|].
  exact (list_files_returns_documents s3 (bearer alice_token) alice alice_authenticates).
Defined.

(** Alice's listing shows the access code and the storage path of her file. *)
Lemma listing_exposes_code :
  list_files s3 (bearer alice_token) = Sent (res_json (JArr [File.toJSON a_txt_doc])) /\
  js_field "code" (File.toJSON a_txt_doc) = Some (JStr "550000") /\
  js_field "filepath" (File.toJSON a_txt_doc) = Some (JStr "uploads/1700000002000-a.txt") /\
  ~ listing_has_shape ["id"; "filename"; "uploadedAt"]%string (list_files s3 (bearer alice_token)).
Proof.
  assert (list_files s3 (bearer alice_token) = Sent (res_json (JArr [File.toJSON a_txt_doc])))
    as Hlist by (vm_compute; reflexivity).
  split; [exact Hlist|]. split; [reflexivity|]. split; [reflexivity|].
  rewrite Hlist. intros (items & Hitems & Hshape).
  injection Hitems as <-. specialize (Hshape _ (or_introl eq_refl)). discriminate.
Qed.

Lemma delete_foreign_file_not_found_witness :
  unique_file_ids s3 /\
  authMiddleware (bearer bob_token) = Next bob /\
  File_findById 2%N s3 = Some a_txt_doc /\
  File.uploadedBy a_txt_doc <> id bob /\
  delete_file s3 (bearer bob_token) 2%N
  = (s3, Sent (res_status_json 404 (error_body "File not found"))) /\
  forall absent, File_findById absent s3 = None ->
                 delete_file s3 (bearer bob_token) absent
                 = (s3, Sent (res_status_json 404 (error_body "File not found"))).
Proof.
  assert (File_findById 2%N s3 = Some a_txt_doc) as Hfile by (vm_compute; reflexivity).
  assert (File.uploadedBy a_txt_doc <> id bob) as Hother by (vm_compute; discriminate).
  split; [exact s3_unique_file_ids|]. split; [exact bob_authenticates|].
  split; [exact Hfile|]. split; [exact Hother|].
  exact (delete_foreign_file_not_found s3 (bearer bob_token) bob 2%N a_txt_doc
           s3_unique_file_ids bob_authenticates Hfile Hother).
Defined.

Lemma delete_ignores_unlink_outcome_witness :
  authMiddleware (bearer alice_token) = Next alice /\
  File_findOne 2%N (id alice) s3_blob_lost = Some a_txt_doc /\
  fs_unlinkSync (File.filepath a_txt_doc) (disk s3_blob_lost)
  = (∅, Thrown "ENOENT: no such file or directory") /\
  delete_file s3_blob_lost (bearer alice_token) 2%N
  = ({| users := users s3_blob_lost;
        files := deleteOne (File._id a_txt_doc) (files s3_blob_lost);
        disk := ∅; next_id := next_id s3_blob_lost |},
     Sent (res_json (message_body "File deleted"))) /\
  (unique_file_ids s3_blob_lost ->
   File_findById 2%N (fst (delete_file s3_blob_lost (bearer alice_token) 2%N)) = None).
Proof.
  assert (File_findOne 2%N (id alice) s3_blob_lost = Some a_txt_doc) as Hfile
      by (vm_compute; reflexivity).
  assert (fs_unlinkSync (File.filepath a_txt_doc) (disk s3_blob_lost)
          = (∅, Thrown "ENOENT: no such file or directory")) as Hunlink
      by (vm_compute; reflexivity).
  split; [exact alice_authenticates|]. split; [exact Hfile|]. split; [exact Hunlink|].
  exact (delete_ignores_unlink_outcome s3_blob_lost (bearer alice_token) alice 2%N a_txt_doc
           ∅ (Thrown "ENOENT: no such file or directory") alice_authenticates Hfile Hunlink).
Defined.

Lemma download_without_code_rejected_witness :
  reachable s3 /\ In a_txt_doc (files s3) /\
  six_digits (File.code a_txt_doc) /\
  File.code a_txt_doc <> EmptyString /\
  download s3 (File._id a_txt_doc) JUndefined = invalid_code.
Proof.
  assert (In a_txt_doc (files s3)) as Hin by (rewrite s3_files; left; reflexivity).
  split; [exact s3_reachable|]. split; [exact Hin|].
  exact (download_without_code_rejected s3 a_txt_doc s3_reachable Hin).
Defined.

End Scenario.

(** ** Beyond the routes' contracts: the middleware, file names, traffic *)

Section TrafficFacts.
Context `{Bcrypt} `{JsonWebToken} `{FileSystem} `{ProcessEnv}.

(** *** [authMiddleware] *)

Lemma authMiddleware_cases authorization :
  match authMiddleware authorization with
  | Next decoded =>
      exists header token,
        authorization = Some header /\
        nth_error (split_on " " header) 1 = Some token /\
        token <> EmptyString /\
        jwt_verify token JWT_SECRET = Some decoded
  | Done o =>
      (o = unauthorized /\
       forall header token, authorization = Some header ->
                            nth_error (split_on " " header) 1 = Some token ->
                            token = EmptyString) \/
      (o = invalid_token /\
       exists header token,
         authorization = Some header /\
         nth_error (split_on " " header) 1 = Some token /\
         token <> EmptyString /\
         jwt_verify token JWT_SECRET = None)
  end.
Proof.
  unfold authMiddleware.
  destruct authorization as [header|].
  - destruct (nth_error (split_on " " header) 1) as [token|] eqn:Hnth.
    + destruct token as [|c token].
      * left. split; [reflexivity|]. intros h t [= <-] Ht. congruence.
      * destruct (jwt_verify (String c token) JWT_SECRET) as [decoded|] eqn:Hv.
        -- exists header, (String c token). repeat split; try assumption. discriminate.
        -- right. split; [reflexivity|].
           exists header, (String c token). repeat split; try assumption. discriminate.
    + left. split; [reflexivity|]. intros h t [= <-] Ht. congruence.
  - left. split; [reflexivity|]. discriminate.
Qed.


Lemma authMiddleware_of_token header token :
  nth_error (split_on " " header) 1 = Some token ->
  has_char " " token = false ->
  authMiddleware (Some header) = authMiddleware (Some ("Bearer " ++ token)%string).
Proof.
  intros Hnth Hclean. unfold authMiddleware. rewrite Hnth.
  change ("Bearer " ++ token)%string with ("Bearer" ++ String " " token)%string.
  rewrite split_on_app by reflexivity. rewrite split_on_absent by exact Hclean.
  reflexivity.
Qed.

Lemma split_on_two sep a b rest :
  has_char sep a = false -> has_char sep b = false ->
  split_on sep (a ++ String sep (b ++ String sep rest)) = a :: b :: split_on sep rest.
Proof. intros Ha Hb. rewrite !split_on_app by assumption. reflexivity. Qed.

(** X1. [authMiddleware] calls the next handler exactly when the second
    space-separated piece of the [Authorization] header is a non-empty token
    that [jwt.verify] accepts, and it hands over what [jwt.verify] decoded;
    every other request is answered 401, with [Unauthorized] or
    [Invalid token]. *)
Theorem authMiddleware_passes_verified_tokens (authorization : option string)
        (decoded : Decoded) :
  (authMiddleware authorization = Next decoded <->
   exists header token,
     authorization = Some header /\
     nth_error (split_on " " header) 1 = Some token /\
     token <> EmptyString /\
     jwt_verify token JWT_SECRET = Some decoded)
  /\ (forall o, authMiddleware authorization = Done o ->
                o = unauthorized \/ o = invalid_token).
Proof.
  pose proof (authMiddleware_cases authorization) as Hcases.
  split; [split|].
  - intros Hnext. rewrite Hnext in Hcases. exact Hcases.
  - intros (header & token & -> & Hnth & Hne & Hv).
    unfold authMiddleware. rewrite Hnth.
    destruct token as [|c token]; [contradiction|]. rewrite Hv. reflexivity.
  - intros o Hdone. rewrite Hdone in Hcases. tauto.
Qed.

(** X2. A request without a usable token never reaches [jwt.verify]: with no
    [Authorization] header, with a header that has no space, or with a header
    whose first space is at its end or followed by another space, the answer
    is 401 [Unauthorized], whatever the rest of the header holds. *)
Theorem authMiddleware_without_token (scheme rest : string) :
  authMiddleware None = Done unauthorized /\
  (has_char " " scheme = false ->
   authMiddleware (Some scheme) = Done unauthorized /\
   authMiddleware (Some (scheme ++ " ")%string) = Done unauthorized /\
   authMiddleware (Some (scheme ++ "  " ++ rest)%string) = Done unauthorized).
Proof.
  split; [reflexivity|]. intros Hscheme. unfold authMiddleware. repeat split.
  - rewrite split_on_absent by exact Hscheme. reflexivity.
  - change (scheme ++ " ")%string with (scheme ++ String " " EmptyString)%string.
    rewrite split_on_app by exact Hscheme. reflexivity.
  - change (scheme ++ "  " ++ rest)%string
      with (scheme ++ String " " (EmptyString ++ String " " rest))%string.
    rewrite split_on_two by (exact Hscheme || reflexivity). reflexivity.
Qed.

(** X3. [authMiddleware] does not look at the scheme word nor at anything
    after the token: a header [<scheme> <token>] or [<scheme> <token> <rest>]
    is treated like [Bearer <token>]. *)
Theorem authMiddleware_ignores_scheme (scheme token rest : string) :
  has_char " " scheme = false ->
  has_char " " token = false ->
  authMiddleware (Some (scheme ++ " " ++ token)%string)
  = authMiddleware (Some ("Bearer " ++ token)%string) /\
  authMiddleware (Some (scheme ++ " " ++ token ++ " " ++ rest)%string)
  = authMiddleware (Some ("Bearer " ++ token)%string).
Proof.
  intros Hscheme Htoken. split; apply authMiddleware_of_token; try exact Htoken.
  - change (scheme ++ " " ++ token)%string with (scheme ++ String " " token)%string.
    rewrite split_on_app by exact Hscheme.
    rewrite split_on_absent by exact Htoken. reflexivity.
  - change (scheme ++ " " ++ token ++ " " ++ rest)%string
      with (scheme ++ String " " (token ++ String " " rest))%string.
    rewrite split_on_two by assumption. reflexivity.
Qed.

(** X4. A request that [authMiddleware] turns down has no effect: upload,
    listing and delete answer with the middleware's response and leave the
    records and the disk as they were (Multer does not run). *)
Theorem rejected_request_changes_nothing (s : Server) (req : Request)
        (authorization : option string) (o : Outcome) :
  authorization_of req = Some authorization ->
  authMiddleware authorization = Done o ->
  handle s req = (s, o).
Proof.
  intros Hreq Hdone.
  destruct req; cbn [authorization_of] in Hreq; try discriminate;
    injection Hreq as ->; cbn [handle].
  - unfold upload. rewrite Hdone. reflexivity.
  - unfold list_files. rewrite Hdone. reflexivity.
  - unfold delete_file. rewrite Hdone. reflexivity.
Qed.

(** X5. An authenticated upload that carries no file part at all is not
    answered by the handler: Multer passes it on with [req.file] undefined,
    the handler throws on [req.file.filename] before it creates a record, and
    the records and the disk are left as they were. *)
Theorem upload_without_file (s : Server) (authorization : option string)
        (user : Decoded) (t_store t_doc : N) (random : Z) :
  authMiddleware authorization = Next user ->
  exists error,
    upload s authorization None t_store t_doc random = (s, Unhandled error).
Proof.
  intros Hauth. unfold upload, upload_single, upload_handler. rewrite Hauth.
  destruct s. eexists. reflexivity.
Qed.


(** *** Multer's file names *)

Lemma append_inv_head (a x y : string) : (a ++ x)%string = (a ++ y)%string -> x = y.
Proof. induction a as [|c a IH]; simpl; intros Heq; [exact Heq|]. injection Heq as Heq. auto. Qed.

Lemma Number_toString_inj n m :
  0 <= n -> 0 <= m -> Number_toString n = Number_toString m -> n = m.
Proof.
  intros Hn Hm Heq.
  rewrite <- (proj2 (Number_toString_sound n Hn)), <- (proj2 (Number_toString_sound m Hm)).
  rewrite Heq. reflexivity.
Qed.

Lemma storage_filename_split now originalname :
  split_on "-" (storage_filename now originalname)
  = Number_toString (Z.of_N now) :: split_on "-" originalname.
Proof.
  unfold storage_filename.
  change (Number_toString (Z.of_N now) ++ "-" ++ originalname)%string
    with (Number_toString (Z.of_N now) ++ String "-" originalname)%string.
  apply split_on_app. apply all_digits_has_char; [reflexivity|].
  exact (proj1 (Number_toString_sound _ (N2Z.is_nonneg now))).
Qed.

(** X6. Multer's file name [Date.now() + "-" + originalname] determines both
    the time stamp and the original name: two uploads share a name on disk
    only when they agree on both. *)
Theorem storage_filename_inj (t1 t2 : N) (name1 name2 : string) :
  storage_filename t1 name1 = storage_filename t2 name2 <-> t1 = t2 /\ name1 = name2.
Proof.
  split; [|intros [-> ->]; reflexivity].
  intros Heq. pose proof (f_equal (split_on "-") Heq) as Hsplit.
  rewrite !storage_filename_split in Hsplit. injection Hsplit as Hdigits _.
  apply Number_toString_inj in Hdigits; try apply N2Z.is_nonneg.
  apply N2Z.inj in Hdigits. subst t2. split; [reflexivity|].
  unfold storage_filename in Heq. apply append_inv_head in Heq.
  cbn in Heq. injection Heq as Heq. exact Heq.
Qed.

(** *** Files over time *)

Lemma find_deleteOne_other file_id other l :
  file_id <> other ->
  find (fun f => N.eqb (File._id f) file_id) (deleteOne other l)
  = find (fun f => N.eqb (File._id f) file_id) l.
Proof.
  intros Hne. induction l as [|g l IH]; cbn [deleteOne find]; [reflexivity|].
  destruct (N.eqb_spec (File._id g) other) as [Hg|Hg].
  - destruct (N.eqb_spec (File._id g) file_id); [congruence|reflexivity].
  - cbn [find]. rewrite IH. reflexivity.
Qed.

Lemma deleteOne_length file_id l f :
  find (fun f => N.eqb (File._id f) file_id) l = Some f ->
  S (length (deleteOne file_id l)) = length l.
Proof.
  induction l as [|g l IH]; cbn [find deleteOne]; [discriminate|].
  destruct (N.eqb (File._id g) file_id); [reflexivity|].
  intros Hfind. cbn [length]. rewrite (IH Hfind). reflexivity.
Qed.


Lemma deleteOne_id_gone file_id l f :
  NoDup (map File._id l) -> In f (deleteOne file_id l) -> File._id f <> file_id.
Proof.
  induction l as [|g l IH]; cbn [deleteOne map]; [intros _ []|].
  rewrite NoDup_cons, list_elem_of_In. intros [Hg Hl].
  destruct (N.eqb_spec (File._id g) file_id) as [Heq|Hne].
  - intros Hf Hid. apply Hg. rewrite in_map_iff. exists f. split; [congruence|exact Hf].
  - intros [<-|Hf]; [exact Hne|exact (IH Hl Hf)].
Qed.

Lemma File_findOne_id s file_id owner file :
  File_findOne file_id owner s = Some file ->
  In file (files s) /\ File._id file = file_id /\ File.uploadedBy file = owner.
Proof.
  unfold File_findOne. intros Hfind. apply find_some in Hfind as [Hin Hboth].
  apply andb_prop in Hboth as [Hid Hown]. apply N.eqb_eq in Hid, Hown. auto.
Qed.

Lemma File_findOne_findById s file_id owner file :
  unique_file_ids s -> File_findOne file_id owner s = Some file ->
  File_findById file_id s = Some file.
Proof.
  intros Huniq Hone. apply File_findOne_id in Hone as (Hin & Hid & _).
  unfold File_findById. destruct (find _ (files s)) as [g|] eqn:Hfind.
  - apply find_some in Hfind as [Hin' Hid']. apply N.eqb_eq in Hid'.
    f_equal. eapply unique_id_same_file; eauto. congruence.
  - pose proof (find_none _ _ Hfind file Hin) as Hno. cbv beta in Hno.
    apply N.eqb_neq in Hno. contradiction.
Qed.

Lemma handle_keeps_file s req file_id f :
  File_findById file_id s = Some f -> deletes file_id req = false ->
  File_findById file_id (fst (handle s req)) = Some f.
Proof.
  intros Hfile Hreq. unfold File_findById in *.
  destruct req; cbn [handle fst]; try exact Hfile.
  - unfold upload. destruct (authMiddleware authorization); [|exact Hfile].
    unfold upload_single.
    destruct part as [[originalname content]|]; [|exact Hfile].
    destruct (disk_write _ _ _) as [d [[]|e]]; [|exact Hfile].
    unfold upload_handler. cbn [fst files]. rewrite find_app, Hfile. reflexivity.
  - unfold delete_file. destruct (authMiddleware authorization); [|exact Hfile].
    destruct (File_findOne file_id0 (id a) s) as [file|] eqn:Hone; [|exact Hfile].
    destruct (fs_unlinkSync _ _) as [d o]. cbn [fst files].
    apply File_findOne_id in Hone as (_ & Hid & _). rewrite Hid.
    cbn [deletes] in Hreq. apply N.eqb_neq in Hreq.
    rewrite find_deleteOne_other by congruence. exact Hfile.
Qed.

Lemma handle_keeps_user s req username u :
  User_findOne username s = Some u ->
  User_findOne username (fst (handle s req)) = Some u.
Proof.
  intros Huser. unfold User_findOne in *.
  destruct req; cbn [handle fst]; try exact Huser.
  - unfold register. cbn [fst users]. rewrite find_app, Huser. reflexivity.
  - unfold upload. destruct (authMiddleware authorization); [|exact Huser].
    destruct (upload_single _ _ _) as [d [file|o]]; [|exact Huser].
    unfold upload_handler. destruct file; exact Huser.
  - unfold delete_file. destruct (authMiddleware authorization); [|exact Huser].
    destruct (File_findOne _ _ _); [|exact Huser].
    destruct (fs_unlinkSync _ _). exact Huser.
Qed.

(** X7. Upload, then download: when the caller is authenticated and the
    file was written, the answer carries the generated code, and afterwards a
    download of the new id with that code is let through to the stored path,
    while every other supplied code is answered 403 [Invalid code]. *)
Theorem upload_then_download (s : Server) (authorization : option string)
        (originalname : string) (content : list Byte.byte) (t_store t_doc : N) (random : Z)
        (uploader : Decoded) (d : Disk) :
  server_invariant s ->
  authMiddleware authorization = Next uploader ->
  disk_write (storage_destination ++ storage_filename t_store originalname)%string
             content (disk s) = (d, Returned tt) ->
  let result := upload s authorization (Some (originalname, content)) t_store t_doc random in
  snd result = Sent (res_json (JObj [("message"%string, JStr "File uploaded");
                                     ("code"%string, JStr (generate_code random))])) /\
  download (fst result) (next_id s) (JStr (generate_code random))
  = Sent (res_download (storage_destination ++ storage_filename t_store originalname)%string) /\
  forall code, code <> JStr (generate_code random) ->
               download (fst result) (next_id s) code = invalid_code.
Proof.
  intros (_ & Hbelow & _) Hauth Hwrite. cbv zeta.
  unfold upload, upload_single. rewrite Hauth, Hwrite.
  unfold upload_handler. cbn [fst snd req_filename req_path].
  split; [reflexivity|].
  assert (forall code,
             download {| users := users s;
                         files := files s ++
                                  [{| File._id := next_id s;
                                      File.filename := storage_filename t_store originalname;
                                      File.filepath :=
                                        (storage_destination
                                         ++ storage_filename t_store originalname)%string;
                                      File.uploadedBy := id uploader;
                                      File.code := generate_code random;
                                      File.uploadedAt := t_doc |}];
                         disk := d; next_id := N.succ (next_id s) |} (next_id s) code
             = if negb (strict_eq_string (generate_code random) code)
               then invalid_code
               else Sent (res_download
                            (storage_destination ++ storage_filename t_store originalname)%string))
    as Hdl.
  { intros code. unfold download, File_findById. cbn [files].
    rewrite find_app, find_id_absent.
    - cbn [find File._id]. rewrite N.eqb_refl. reflexivity.
    - rewrite in_map_iff. intros (f & Hid & Hin). specialize (Hbelow f Hin). lia. }
  split.
  - rewrite Hdl, (proj2 (strict_eq_string_true _ _) eq_refl). reflexivity.
  - intros code Hne. rewrite Hdl.
    destruct (strict_eq_string (generate_code random) code) eqn:Heq; [|reflexivity].
    apply strict_eq_string_true in Heq. contradiction.
Qed.

(** X9. After the owner deleted a file (ids being unique), the id is gone:
    every download of it is answered 403 [Invalid code], no listing shows
    it, a second delete is answered 404 [File not found] and changes nothing,
    and the collection has exactly one record less. *)
Theorem delete_then_gone (s : Server) (authorization : option string)
        (caller : Decoded) (file_id : ObjectId) (file : File.t) :
  unique_file_ids s ->
  authMiddleware authorization = Next caller ->
  File_findOne file_id (id caller) s = Some file ->
  let s' := fst (delete_file s authorization file_id) in
  (forall code, download s' file_id code = invalid_code) /\
  (forall owner f, In f (File_find owner s') -> File._id f <> file_id) /\
  delete_file s' authorization file_id
  = (s', Sent (res_status_json 404 (error_body "File not found"))) /\
  S (length (files s')) = length (files s).
Proof.
  intros Huniq Hauth Hone. cbv zeta.
  pose proof (File_findOne_findById _ _ _ _ Huniq Hone) as Hby.
  pose proof (File_findOne_id _ _ _ _ Hone) as (_ & Hid & _).
  assert (exists d, fst (delete_file s authorization file_id)
                    = {| users := users s; files := deleteOne file_id (files s);
                         disk := d; next_id := next_id s |}) as [d ->].
  { unfold delete_file. rewrite Hauth, Hone, Hid.
    destruct (fs_unlinkSync (File.filepath file) (disk s)) as [d o]. eauto. }
  assert (File_findById file_id
            {| users := users s; files := deleteOne file_id (files s);
               disk := d; next_id := next_id s |} = None) as Hgone.
  { unfold File_findById. cbn [files]. apply deleteOne_find. exact Huniq. }
  split; [|split; [|split]].
  - intros code. unfold download. rewrite Hgone. reflexivity.
  - intros owner f Hf. apply File_find_spec in Hf as [Hf _]. cbn [files] in Hf.
    eapply deleteOne_id_gone; [exact Huniq|exact Hf].
  - unfold delete_file. rewrite Hauth, File_findOne_absent by exact Hgone. reflexivity.
  - cbn [files]. eapply deleteOne_length. exact Hby.
Qed.


(** X11. The first record with a username answers for it for good: whatever
    requests follow, [User.findOne] returns the same record, so a login with
    that username is answered as before (later registrations of the name
    cannot take it over or lock it out). *)
Theorem first_registration_wins (s : Server) (reqs : list Request)
        (username : string) (user : User.t) :
  User_findOne username s = Some user ->
  User_findOne username (run s reqs) = Some user /\
  forall password now,
    login (run s reqs) username password now = login s username password now.
Proof.
  intros Huser.
  assert (User_findOne username (run s reqs) = Some user) as Hkept.
  { revert s Huser. unfold run.
    induction reqs as [|req reqs IH]; intros s Huser; cbn [fold_left]; [exact Huser|].
    apply IH. apply handle_keeps_user. exact Huser. }
  split; [exact Hkept|]. intros password now. unfold login.
  rewrite Hkept, Huser. reflexivity.
Qed.

(** *** Invariants of the records *)

Lemma records_wellformed_handle s req :
  records_wellformed s -> records_wellformed (fst (handle s req)).
Proof.
  intros [Husers Hfiles].
  destruct req; cbn [handle fst]; try (split; assumption).
  - unfold register. split; cbn [fst users files]; [|exact Hfiles].
    intros u Hu. apply in_app_or in Hu as [Hu|[<-|[]]]; [exact (Husers u Hu)|].
    exists password, salt. reflexivity.
  - unfold upload.
    pose proof (authMiddleware_cases authorization) as Hcases.
    destruct (authMiddleware authorization) as [user|o]; [|split; assumption].
    destruct Hcases as (header & token & _ & _ & _ & Hverify).
    unfold upload_single. destruct part as [[originalname content]|].
    + destruct (disk_write _ _ _) as [d [[]|e]]; [|split; assumption].
      unfold upload_handler. split; cbn [fst users files]; [exact Husers|].
      intros f Hf. apply in_app_or in Hf as [Hf|[<-|[]]]; [exact (Hfiles f Hf)|].
      unfold file_wellformed.
      cbn [File.filepath File.filename File.uploadedBy req_filename req_path].
      split; [reflexivity|]. split; eauto.
    + split; assumption.
  - unfold delete_file. destruct (authMiddleware authorization); [|split; assumption].
    destruct (File_findOne _ _ _) as [file|]; [|split; assumption].
    destruct (fs_unlinkSync _ _) as [d o]. split; cbn [fst users files]; [exact Husers|].
    intros f Hf. apply Hfiles. eapply deleteOne_In. exact Hf.
Qed.

Lemma records_wellformed_reachable s : reachable s -> records_wellformed s.
Proof.
  induction 1 as [d|s req _ IH _]; [|apply records_wellformed_handle; exact IH].
  split; intros x [].
Qed.

(** X13. In every reachable state every file record lies in the upload
    directory under the name Multer gave it ([uploads/<time>-<original name>]),
    and its owner is an id that a token accepted by [jwt.verify] carried. *)
Theorem reachable_files_wellformed (s : Server) (file : File.t) :
  reachable s -> In file (files s) ->
  (exists t originalname,
      File.filename file = storage_filename t originalname /\
      File.filepath file = (storage_destination ++ storage_filename t originalname)%string) /\
  (exists token decoded,
      jwt_verify token JWT_SECRET = Some decoded /\ File.uploadedBy file = id decoded).
Proof.
  intros Hreach Hfile.
  destruct (records_wellformed_reachable s Hreach) as [_ Hfiles].
  destruct (Hfiles file Hfile) as (Hpath & (t & originalname & Hname) & Hown).
  split; [|exact Hown]. exists t, originalname. rewrite Hpath, Hname. auto.
Qed.

(** X14. Whenever a login succeeds, its token resolves in [authMiddleware]
    to the id of the first record with the username, with the time of issue in
    seconds; a login is answered with a token exactly when that record's hash
    matches the password. *)
Theorem login_token_resolves `{!JwtCorrect} (s : Server) (username password : string)
        (now : N) (user : User.t) :
  User_findOne username s = Some user ->
  (bcrypt_compare password (User.password user) = true <->
   exists token,
     login s username password now = Sent (res_json (JObj [("token"%string, JStr token)])))
  /\ (forall token,
         login s username password now = Sent (res_json (JObj [("token"%string, JStr token)])) ->
         authMiddleware (Some ("Bearer " ++ token)%string)
         = Next {| id := User._id user; iat := (now / 1000)%N |}).
Proof.
  intros Huser. unfold login. rewrite Huser.
  destruct (bcrypt_compare password (User.password user)).
  - split; [split; eauto|]. intros token [= <-]. apply authMiddleware_bearer.
  - split; [split; [discriminate|intros [token Htoken]; discriminate]|].
    intros token Htoken. discriminate.
Qed.

End TrafficFacts.

(** ** The download route with the transfer; users over time *)

Section TransferFacts.
Context `{Bcrypt} `{JsonWebToken} `{FileSystem} `{ProcessEnv} `{ObjectIdCast} `{!DiskRead}.

(** The code check of [download] is the one of [download_route]. *)
Lemma download_route_check s raw_id file_id code :
  castObjectId raw_id = Some file_id ->
  download_route s raw_id code
  = match File_findById file_id s with
    | Some file =>
        if strict_eq_string (File.code file) code
        then match disk_lookup (File.filepath file) (disk s) with
             | Some content => Delivered (File.filepath file) content
             | None => Undelivered not_on_disk
             end
        else Undelivered (download s file_id code)
    | None => Undelivered (download s file_id code)
    end.
Proof.
  intros Hcast. unfold download_route, download. rewrite Hcast.
  destruct (File_findById file_id s) as [file|]; [|reflexivity].
  destruct (strict_eq_string (File.code file) code); reflexivity.
Qed.

(** C1 (amended). The download route delivers the file exactly when the
    parameter casts to an id, a record with that id is found, the supplied
    code is the string stored with it, and the blob is still on disk under
    the record's path.  A missing record and a wrong code get the same 403
    [Invalid code]; the right code with the blob gone gets 404, and a
    parameter that does not cast gets no [Invalid code] either: the lookup
    throws. *)
Theorem download_route_delivers_iff (s : Server) (raw_id : string) (code : JsVal) :
  (forall path content,
      download_route s raw_id code = Delivered path content <->
      exists file_id file,
        castObjectId raw_id = Some file_id /\
        File_findById file_id s = Some file /\
        code = JStr (File.code file) /\
        path = File.filepath file /\
        disk_lookup (File.filepath file) (disk s) = Some content)
  /\ (forall file_id, castObjectId raw_id = Some file_id ->
                      File_findById file_id s = None ->
                      download_route s raw_id code = Undelivered invalid_code)
  /\ (forall file_id file, castObjectId raw_id = Some file_id ->
                           File_findById file_id s = Some file ->
                           code <> JStr (File.code file) ->
                           download_route s raw_id code = Undelivered invalid_code)
  /\ (forall file_id file, castObjectId raw_id = Some file_id ->
                           File_findById file_id s = Some file ->
                           code = JStr (File.code file) ->
                           disk_lookup (File.filepath file) (disk s) = None ->
                           download_route s raw_id code = Undelivered not_on_disk)
  /\ (castObjectId raw_id = None -> download_route s raw_id code = Undelivered cast_error).
Proof.
  split; [|split; [|split; [|split]]].
  - intros path content. split.
    + unfold download_route. intros Hdelivered.
      destruct (castObjectId raw_id) as [file_id|]; [|discriminate].
      destruct (File_findById file_id s) as [file|] eqn:Hfile; [|discriminate].
      destruct (strict_eq_string (File.code file) code) eqn:Hcode; [|discriminate].
      destruct (disk_lookup (File.filepath file) (disk s)) as [blob|] eqn:Hblob;
        [|discriminate].
      cbn [negb] in Hdelivered. injection Hdelivered as <- <-.
      apply strict_eq_string_true in Hcode. exists file_id, file. auto.
    + intros (file_id & file & Hcast & Hfile & -> & -> & Hblob).
      unfold download_route.
      rewrite Hcast, Hfile, (proj2 (strict_eq_string_true _ _) eq_refl), Hblob.
      reflexivity.
  - intros file_id Hcast Hfile. unfold download_route. rewrite Hcast, Hfile. reflexivity.
  - intros file_id file Hcast Hfile Hcode. unfold download_route. rewrite Hcast, Hfile.
    destruct (strict_eq_string (File.code file) code) eqn:Heq; [|reflexivity].
    apply strict_eq_string_true in Heq. contradiction.
  - intros file_id file Hcast Hfile -> Hblob. unfold download_route.
    rewrite Hcast, Hfile, (proj2 (strict_eq_string_true _ _) eq_refl), Hblob. reflexivity.
  - intros Hcast. unfold download_route. rewrite Hcast. reflexivity.
Qed.

(** X8. The record of a stored file outlives any traffic that holds no delete
    request for its id: the lookup returns the same record, so a download is
    checked against the same code and served from the same path.  Any other
    code is answered 403 as before; the stored code is delivered exactly when
    the blob is still on disk, and answered 404 when it is not. *)
Theorem file_record_survives_traffic (s : Server) (reqs : list Request)
        (file_id : ObjectId) (f : File.t) :
  File_findById file_id s = Some f ->
  forallb (fun req => negb (deletes file_id req)) reqs = true ->
  File_findById file_id (run s reqs) = Some f /\
  forall raw_id code,
    castObjectId raw_id = Some file_id ->
    download_route (run s reqs) raw_id code
    = if strict_eq_string (File.code f) code
      then match disk_lookup (File.filepath f) (disk (run s reqs)) with
           | Some content => Delivered (File.filepath f) content
           | None => Undelivered not_on_disk
           end
      else Undelivered invalid_code.
Proof.
  intros Hfile Hreqs.
  assert (File_findById file_id (run s reqs) = Some f) as Hkept.
  { revert s Hfile. unfold run.
    induction reqs as [|req reqs IH]; intros s Hfile; cbn [fold_left]; [exact Hfile|].
    cbn [forallb] in Hreqs. apply andb_prop in Hreqs as [Hreq Hreqs].
    apply (IH Hreqs). apply handle_keeps_file; [exact Hfile|].
    apply negb_true_iff. exact Hreq. }
  split; [exact Hkept|]. intros raw_id code Hcast.
  rewrite (download_route_check _ _ _ _ Hcast), Hkept.
  destruct (strict_eq_string (File.code f) code) eqn:Hcode; [reflexivity|].
  unfold download. rewrite Hkept, Hcode. reflexivity.
Qed.

Lemma credentials_handle s req :
  credentials (fst (handle s req)) = credentials s ++ registrations [req].
Proof.
  unfold credentials.
  destruct req; cbn [handle fst registrations]; try (rewrite app_nil_r; reflexivity).
  - unfold register. cbn [fst users]. rewrite map_app. reflexivity.
  - rewrite app_nil_r. unfold upload.
    destruct (authMiddleware authorization); [|reflexivity].
    destruct (upload_single _ _ _) as [d [file|o]]; [|reflexivity].
    unfold upload_handler. destruct file; reflexivity.
  - rewrite app_nil_r. unfold delete_file.
    destruct (authMiddleware authorization); [|reflexivity].
    destruct (File_findOne _ _ _); [|reflexivity].
    destruct (fs_unlinkSync _ _). reflexivity.
Qed.

Lemma registrations_cons req reqs :
  registrations (req :: reqs) = registrations [req] ++ registrations reqs.
Proof. destruct req; reflexivity. Qed.

(** X12. The user records are exactly the registrations: after any traffic
    the username and password fields are those of before, followed in order
    by one pair per register request, holding the username sent and
    [bcrypt.hash] of the password sent with ten rounds.  No other route
    creates, changes or removes a user record. *)
Theorem users_are_registrations (s : Server) (reqs : list Request) :
  credentials (run s reqs) = credentials s ++ registrations reqs.
Proof.
  revert s. unfold run.
  induction reqs as [|req reqs IH]; intros s; cbn [fold_left].
  - cbn [registrations]. rewrite app_nil_r. reflexivity.
  - rewrite IH, credentials_handle, (registrations_cons req reqs), app_assoc. reflexivity.
Qed.

Lemma reachable_run s reqs :
  reachable s -> Forall admissible reqs -> reachable (run s reqs).
Proof.
  intros Hs Hreqs. revert s Hs. unfold run.
  induction Hreqs as [|req reqs Hreq _ IH]; intros s Hs; cbn [fold_left]; [exact Hs|].
  apply IH. apply reachable_step; assumption.
Qed.

End TransferFacts.

(** ** The further properties on the sample run *)

Module TrafficScenario.
Import Reference ReferenceFacts.

Lemma s2_reachable : reachable s2.
Proof.
  rewrite <- Scenario.s2_run. apply reachable_step; [|exact I].
  rewrite <- Scenario.s1_run. apply reachable_step; [|exact I].
  apply reachable_start.
Qed.

Lemma alice_owns_a_txt : File_findOne 2%N (id alice) s3 = Some a_txt_doc.
Proof. vm_compute. reflexivity. Qed.

Lemma authMiddleware_ignores_scheme_witness :
  has_char " " "Token" = false /\
  has_char " " alice_token = false /\
  authMiddleware (Some ("Token" ++ " " ++ alice_token)%string)
  = authMiddleware (Some ("Bearer " ++ alice_token)%string) /\
  authMiddleware (Some ("Token" ++ " " ++ alice_token ++ " " ++ "trailing words")%string)
  = authMiddleware (Some ("Bearer " ++ alice_token)%string).
Proof.
  assert (has_char " " "Token" = false) as Hscheme by reflexivity.
  assert (has_char " " alice_token = false) as Htoken by reflexivity.
  split; [exact Hscheme|]. split; [exact Htoken|].
  exact (authMiddleware_ignores_scheme "Token" alice_token "trailing words" Hscheme Htoken).
Defined.

Lemma rejected_request_changes_nothing_witness :
  authorization_of (DeleteFile (Some "Bearer"%string) 2%N) = Some (Some "Bearer"%string) /\
  authMiddleware (Some "Bearer"%string) = Done unauthorized /\
  handle s3 (DeleteFile (Some "Bearer"%string) 2%N) = (s3, unauthorized).
Proof.
  assert (authMiddleware (Some "Bearer"%string) = Done unauthorized) as Hdone by reflexivity.
  split; [reflexivity|]. split; [exact Hdone|].
  exact (rejected_request_changes_nothing s3 (DeleteFile (Some "Bearer"%string) 2%N)
           (Some "Bearer"%string) unauthorized eq_refl Hdone).
Defined.

Lemma upload_without_file_witness :
  authMiddleware (bearer alice_token) = Next alice /\
  exists error,
    upload s3 (bearer alice_token) None 1700000007000 1700000007001 0 = (s3, Unhandled error).
Proof.
  split; [exact Scenario.alice_authenticates|].
  exact (upload_without_file s3 (bearer alice_token) alice 1700000007000 1700000007001 0
           Scenario.alice_authenticates).
Defined.

Lemma upload_then_download_witness :
  server_invariant s2 /\
  authMiddleware (bearer alice_token) = Next alice /\
  disk_write (storage_destination ++ storage_filename 1700000002000 "a.txt")%string
             a_txt (disk s2)
  = (<["uploads/1700000002000-a.txt"%string := a_txt]> (disk s2), Returned tt) /\
  let result := upload s2 (bearer alice_token) (Some ("a.txt"%string, a_txt))
                       1700000002000 1700000002005 (2 ^ 1073) in
  snd result = Sent (res_json (JObj [("message"%string, JStr "File uploaded");
                                     ("code"%string, JStr (generate_code (2 ^ 1073)))])) /\
  download (fst result) (next_id s2) (JStr (generate_code (2 ^ 1073)))
  = Sent (res_download (storage_destination ++ storage_filename 1700000002000 "a.txt")%string) /\
  forall code, code <> JStr (generate_code (2 ^ 1073)) ->
               download (fst result) (next_id s2) code = invalid_code.
Proof.
  assert (server_invariant s2) as Hinv by exact (reachable_invariant s2 s2_reachable).
  assert (disk_write (storage_destination ++ storage_filename 1700000002000 "a.txt")%string
                     a_txt (disk s2)
          = (<["uploads/1700000002000-a.txt"%string := a_txt]> (disk s2), Returned tt))
    as Hwrite by (vm_compute; reflexivity).
  split; [exact Hinv|]. split; [exact Scenario.alice_authenticates|]. split; [exact Hwrite|].
  exact (upload_then_download s2 (bearer alice_token) "a.txt" a_txt 1700000002000
           1700000002005 (2 ^ 1073) alice _ Hinv Scenario.alice_authenticates Hwrite).
Defined.

Lemma delete_then_gone_witness :
  unique_file_ids s3 /\
  authMiddleware (bearer alice_token) = Next alice /\
  File_findOne 2%N (id alice) s3 = Some a_txt_doc /\
  let s' := fst (delete_file s3 (bearer alice_token) 2%N) in
  (forall code, download s' 2%N code = invalid_code) /\
  (forall owner f, In f (File_find owner s') -> File._id f <> 2%N) /\
  delete_file s' (bearer alice_token) 2%N
  = (s', Sent (res_status_json 404 (error_body "File not found"))) /\
  S (length (files s')) = length (files s3).
Proof.
  split; [exact Scenario.s3_unique_file_ids|]. split; [exact Scenario.alice_authenticates|].
  split; [exact alice_owns_a_txt|].
  exact (delete_then_gone s3 (bearer alice_token) alice 2%N a_txt_doc
           Scenario.s3_unique_file_ids Scenario.alice_authenticates alice_owns_a_txt).
Defined.

Lemma first_registration_wins_witness :
  User_findOne "alice" s3 = Some alice_record /\
  User_findOne "alice" (run s3 later_traffic) = Some alice_record /\
  forall password now,
    login (run s3 later_traffic) "alice" password now = login s3 "alice" password now.
Proof.
  assert (User_findOne "alice" s3 = Some alice_record) as Huser by reflexivity.
  split; [exact Huser|].
  exact (first_registration_wins s3 later_traffic "alice" alice_record Huser).
Defined.

Lemma reachable_files_wellformed_witness :
  reachable s3 /\ In a_txt_doc (files s3) /\
  (exists t originalname,
      File.filename a_txt_doc = storage_filename t originalname /\
      File.filepath a_txt_doc = (storage_destination ++ storage_filename t originalname)%string) /\
  (exists token decoded,
      jwt_verify token JWT_SECRET = Some decoded /\ File.uploadedBy a_txt_doc = id decoded).
Proof.
  assert (In a_txt_doc (files s3)) as Hin by (left; reflexivity).
  split; [exact Scenario.s3_reachable|]. split; [exact Hin|].
  exact (reachable_files_wellformed s3 a_txt_doc Scenario.s3_reachable Hin).
Defined.

Lemma login_token_resolves_witness :
  User_findOne "alice" s3 = Some alice_record /\
  (bcrypt_compare "p@ss1" (User.password alice_record) = true <->
   exists token,
     login s3 "alice" "p@ss1" 1700000008000
     = Sent (res_json (JObj [("token"%string, JStr token)])))
  /\ (forall token,
         login s3 "alice" "p@ss1" 1700000008000
         = Sent (res_json (JObj [("token"%string, JStr token)])) ->
         authMiddleware (Some ("Bearer " ++ token)%string)
         = Next {| id := User._id alice_record; iat := (1700000008000 / 1000)%N |}).
Proof.
  assert (User_findOne "alice" s3 = Some alice_record) as Huser by reflexivity.
  split; [exact Huser|].
  exact (login_token_resolves s3 "alice" "p@ss1" 1700000008000 alice_record Huser).
Defined.

(** The second [alice] of [later_traffic] is there, yet the name still logs in
    with the first password only. *)
Example later_alice_cannot_log_in :
  count_username "alice" (run s3 later_traffic) = 2%nat /\
  login (run s3 later_traffic) "alice" "stolen" 1700000009000
  = Sent (res_status_json 401 (error_body "Invalid password")).
Proof. split; vm_compute; reflexivity. Qed.

Lemma s4_run : run s3 later_traffic = s4.
Proof. vm_compute. reflexivity. Qed.

Lemma s5_run : run s3 blob_traffic = s5.
Proof. vm_compute. reflexivity. Qed.

Lemma s5_reachable : reachable s5.
Proof.
  rewrite <- s5_run. apply reachable_run; [exact Scenario.s3_reachable|].
  repeat constructor; vm_compute; reflexivity.
Qed.


Example download_route_delivers_a_txt :
  download_route s3 a_txt_id (JStr "550000") = Delivered "uploads/1700000002000-a.txt" a_txt.
Proof. vm_compute. reflexivity. Qed.

(** After bob's upload of the same name in the same millisecond and his
    delete of his own record, alice's record is there and her code is right,
    yet the download is answered 404: bob's delete unlinked the blob they
    shared.  A parameter that is no ObjectId is not answered at all. *)
Lemma download_fails_despite_code :
  reachable s5 /\
  castObjectId a_txt_id = Some 2%N /\
  File_findById 2%N s5 = Some a_txt_doc /\
  download_route s5 a_txt_id (JStr (File.code a_txt_doc)) = Undelivered not_on_disk /\
  download_route s5 "2" (JStr (File.code a_txt_doc)) = Undelivered cast_error /\
  ~ exists path content,
      download_route s5 a_txt_id (JStr (File.code a_txt_doc)) = Delivered path content.
Proof.
  assert (download_route s5 a_txt_id (JStr (File.code a_txt_doc)) = Undelivered not_on_disk)
    as Hroute by (vm_compute; reflexivity).
  split; [exact s5_reachable|]. split; [reflexivity|]. split; [reflexivity|].
  split; [exact Hroute|]. split; [reflexivity|].
  intros (path & content & Hdelivered). rewrite Hroute in Hdelivered. discriminate.
Qed.

Lemma file_record_survives_traffic_witness :
  File_findById 2%N s3 = Some a_txt_doc /\
  forallb (fun req => negb (deletes 2%N req)) blob_traffic = true /\
  (File_findById 2%N (run s3 blob_traffic) = Some a_txt_doc /\
   forall raw_id code,
     castObjectId raw_id = Some 2%N ->
     download_route (run s3 blob_traffic) raw_id code
     = if strict_eq_string (File.code a_txt_doc) code
       then match disk_lookup (File.filepath a_txt_doc) (disk (run s3 blob_traffic)) with
            | Some content => Delivered (File.filepath a_txt_doc) content
            | None => Undelivered not_on_disk
            end
       else Undelivered invalid_code) /\
  download_route (run s3 blob_traffic) a_txt_id (JStr "550000") = Undelivered not_on_disk /\
  download_route (run s3 blob_traffic) a_txt_id (JStr "000000") = Undelivered invalid_code.
Proof.
  assert (File_findById 2%N s3 = Some a_txt_doc) as Hfile by (vm_compute; reflexivity).
  assert (forallb (fun req => negb (deletes 2%N req)) blob_traffic = true) as Hreqs
      by reflexivity.
  pose proof (file_record_survives_traffic s3 blob_traffic 2%N a_txt_doc Hfile Hreqs)
    as Hsurvives.
  split; [exact Hfile|]. split; [exact Hreqs|]. split; [exact Hsurvives|].
  destruct Hsurvives as [_ Hroute].
  split; rewrite (Hroute a_txt_id _ eq_refl), s5_run; reflexivity.
Defined.


(** The user records after [later_traffic]: the second [alice] is stored
    under a hash of her own password, behind the first. *)
Example credentials_after_later_traffic :
  credentials (run s3 later_traffic)
  = credentials s3 ++ [("alice"%string, bcrypt_hash "stolen" 10 "salt-x")].
Proof. rewrite s4_run. reflexivity. Qed.

End TrafficScenario.
